(** * slidev_converter.py: the slide model, the two extractors, the renderer,
      the document assembler and the filename sanitizer.

    A Python [str] is a sequence of Unicode code points; it is modelled as a
    list of code points.  The string methods and the two regular expressions
    the converter uses are given their Python meaning in [Module Py]. *)

From Stdlib Require Import List NArith Arith Bool Lia String Ascii DecimalNat.
Import ListNotations.

Definition char := N.
Bind Scope N_scope with char.
Definition str := list char.

(** An ASCII literal of the source, as code points. *)
Definition lit (s : string) : str :=
  map N_of_ascii (list_ascii_of_string s).

Definition nl : char := 10%N.         (* line feed *)
Definition dquote : char := 34%N.     (* double quote *)
Definition hash : char := 35%N.       (* # *)
Definition hyphen : char := 45%N.     (* - *)
Definition lt : char := 60%N.         (* < *)
Definition gt : char := 62%N.         (* > *)
Definition backslash : char := 92%N.  (* backslash *)
Definition underscore : char := 95%N. (* _ *)

(** [s] between double quotes, as the f-string of [generate_frontmatter]
    builds it. *)
Definition quoted (s : str) : str := dquote :: s ++ [dquote].

(** The part of the Unicode database that cannot be written out here: which
    code points from U+0080 on are alphanumeric ([str.isalnum], the class
    behind [\w]), and the lowercase form of such a code point inside a string
    ([str.lower]; the arguments are the text before it, the code point, and
    the text after it, since Greek capital sigma is lowered by context).
    Code points below U+0080 never consult it. *)
Record UCD := {
  ucd_isalnum : char -> bool;
  ucd_lower : str -> char -> str -> str
}.

Module Py.

Definition in_range (lo hi c : char) : bool := ((lo <=? c) && (c <=? hi))%N.

(** [str.isspace] on one code point, which is also the class [\s] of [re]
    on a [str] pattern: the complete list of Python 3. *)
Definition isspace (c : char) : bool :=
  in_range 9 13 c || in_range 28 32 c || (c =? 133)%N || (c =? 160)%N
  || (c =? 5760)%N || in_range 8192 8202 c || (c =? 8232)%N
  || (c =? 8233)%N || (c =? 8239)%N || (c =? 8287)%N || (c =? 12288)%N.

Definition is_ascii (c : char) : bool := (c <? 128)%N.

Definition ascii_isalnum (c : char) : bool :=
  in_range 48 57 c || in_range 65 90 c || in_range 97 122 c.

(** The class [\w]: alphanumeric or underscore. *)
Definition isword (u : UCD) (c : char) : bool :=
  if is_ascii c then ascii_isalnum c || (c =? underscore)%N
  else ucd_isalnum u c.

Definition ascii_lower (c : char) : char :=
  if in_range 65 90 c then (c + 32)%N else c.

(** [s.lower()], written as a pass over [s] that carries the text already
    seen. *)
Fixpoint lower_from (u : UCD) (before s : str) : str :=
  match s with
  | [] => []
  | c :: after =>
      (if is_ascii c then [ascii_lower c] else ucd_lower u before c after)
        ++ lower_from u (before ++ [c]) after
  end.

Definition lower (u : UCD) (s : str) : str := lower_from u [] s.

Fixpoint str_eqb (a b : str) : bool :=
  match a, b with
  | [], [] => true
  | x :: a', y :: b' => (x =? y)%N && str_eqb a' b'
  | _, _ => false
  end.

(** Truth value of a string or a list: non-empty. *)
Definition truthy {A : Type} (s : list A) : bool :=
  match s with [] => false | _ :: _ => true end.

(** [s.startswith(p)]. *)
Fixpoint startswith (p s : str) : bool :=
  match p, s with
  | [], _ => true
  | x :: p', y :: s' => (x =? y)%N && startswith p' s'
  | _ :: _, [] => false
  end.

Fixpoint lstrip (s : str) : str :=
  match s with
  | [] => []
  | c :: r => if isspace c then lstrip r else s
  end.

Definition rstrip (s : str) : str := rev (lstrip (rev s)).

(** [s.strip()]. *)
Definition strip (s : str) : str := rstrip (lstrip s).

(** The pieces of [s] between the code points that satisfy [sep]; there is
    always at least one piece, and pieces may be empty. *)
Fixpoint split_at (sep : char -> bool) (s : str) : list str :=
  match s with
  | [] => [[]]
  | c :: r =>
      if sep c then [] :: split_at sep r
      else match split_at sep r with
           | w :: ws => (c :: w) :: ws
           | [] => [[c]]
           end
  end.

(** [s.split(c)] for a one-character separator. *)
Definition split_char (c : char) (s : str) : list str :=
  split_at (N.eqb c) s.

(** [s.split()]: the non-empty pieces between whitespace. *)
Definition split (s : str) : list str :=
  filter (@truthy char) (split_at isspace s).

(** [sep.join(l)]. *)
Fixpoint join (sep : str) (l : list str) : str :=
  match l with
  | [] => []
  | [x] => x
  | x :: r => x ++ sep ++ join sep r
  end.

(** [s.replace(old, new)] for a one-character [old]. *)
Definition replace (old : char) (new : str) (s : str) : str :=
  flat_map (fun c => if (c =? old)%N then new else [c]) s.

(** [c in s]. *)
Definition contains (c : char) (s : str) : bool := existsb (N.eqb c) s.

(** [s * n]. *)
Fixpoint repeat_str (s : str) (n : nat) : str :=
  match n with
  | O => []
  | S k => s ++ repeat_str s k
  end.

Definition digit (d : nat) : char := (48 + N.of_nat d)%N.

Fixpoint uint_digits (d : Decimal.uint) : str :=
  match d with
  | Decimal.Nil => []
  | Decimal.D0 r => digit 0 :: uint_digits r
  | Decimal.D1 r => digit 1 :: uint_digits r
  | Decimal.D2 r => digit 2 :: uint_digits r
  | Decimal.D3 r => digit 3 :: uint_digits r
  | Decimal.D4 r => digit 4 :: uint_digits r
  | Decimal.D5 r => digit 5 :: uint_digits r
  | Decimal.D6 r => digit 6 :: uint_digits r
  | Decimal.D7 r => digit 7 :: uint_digits r
  | Decimal.D8 r => digit 8 :: uint_digits r
  | Decimal.D9 r => digit 9 :: uint_digits r
  end.

(** [str(n)] of a non-negative integer, as an f-string formats it. *)
Definition str_of_nat (n : nat) : str := uint_digits (Nat.to_uint n).

(** [re.sub(cls, repl, s)] where the pattern [cls] is one character class:
    every matching code point is replaced. *)
Definition re_sub_class (cls : char -> bool) (repl : str) (s : str) : str :=
  flat_map (fun c => if cls c then repl else [c]) s.

(** [re.sub(cls+, repl, s)]: every maximal run of matching code points is
    replaced by one [repl].  [in_run] tells that the previous code point
    already matched. *)
Fixpoint sub_runs (cls : char -> bool) (repl : str) (in_run : bool)
         (s : str) : str :=
  match s with
  | [] => []
  | c :: r =>
      if cls c then
        (if in_run then [] else repl) ++ sub_runs cls repl true r
      else c :: sub_runs cls repl false r
  end.

Definition re_sub_class_plus (cls : char -> bool) (repl : str) (s : str)
  : str := sub_runs cls repl false s.

End Py.

(** The entries of the Unicode database for U+0080..U+00FF (Latin-1
    Supplement), U+0130 (capital I with dot above) and U+0307 (combining dot
    above), as Python 3 has them; the examples below evaluate no code point
    outside these, and the table leaves every other one uncased and
    non-alphanumeric. *)
Definition latin_isalnum (c : char) : bool :=
  (c =? 170)%N || (c =? 178)%N || (c =? 179)%N || (c =? 181)%N
  || (c =? 185)%N || (c =? 186)%N || Py.in_range 188 190 c
  || Py.in_range 192 214 c || Py.in_range 216 246 c || Py.in_range 248 255 c
  || (c =? 304)%N.

Definition latin_lower (before : str) (c : char) (after : str) : str :=
  if Py.in_range 192 214 c || Py.in_range 216 222 c then [(c + 32)%N]
  else if (c =? 304)%N then [105%N; 775%N]
  else [c].

Definition latin_db : UCD :=
  {| ucd_isalnum := latin_isalnum; ucd_lower := latin_lower |}.

(** ** The slide model (class SlideContent) *)

(** The four values [slide_type] takes in this file. *)
Inductive SlideType := TitleSlide | SectionSlide | BulletsSlide | DefaultSlide.

(** A content entry.  The field is declared [List[str]], and the code stores
    two shapes in it: the deck extractor appends tuples [(level, text)], the
    plain-markup extractor appends the line itself; the renderer tells them
    apart with [isinstance(item, tuple)]. *)
Inductive Item :=
| Tuple (level : nat) (text : str)
| Line (text : str).

Record SlideContent := {
  title : str;
  content : list Item;
  slide_type : SlideType;
  layout : str;
  notes : str;
  images : list str
}.

(** The constructor call with its defaults ([layout] and [notes] are given by
    no caller but [parse_powerpoint_slide], which passes [notes]). *)
Definition mkSlide (t : str) (c : list Item) (ty : SlideType) (n : str)
           (imgs : list str) : SlideContent :=
  {| title := t; content := c; slide_type := ty; layout := lit "default";
     notes := n; images := imgs |}.

Definition item_text (it : Item) : str :=
  match it with Tuple _ t => t | Line t => t end.

(** ** The deck, as python-pptx exposes it to the extractor *)

(** Reading [shape.image.blob] gives the bytes or raises. *)
Inductive ImageRead := Blob (data : list N) | Raises.

(** A paragraph of a text frame; [p_level] is [None] when the paragraph
    object has no attribute [level]. *)
Record Paragraph := { p_text : str; p_level : option nat }.

(** A shape at which the probes [hasattr] of lines 71, 82 and 99 return, by
    what they find: [sh_image] is [None] when the shape has no attribute
    [image]; [sh_text_frame] is [None] when it has no (or a false)
    [text_frame]; [sh_text] is [None] when it has no attribute [text].
    [sh_id] stands for the identity [==] compares.  A shape at which the
    probe of line 71 raises is no [Shape]: it is the second case of [Probe],
    further down. *)
Record Shape := {
  sh_id : nat;
  sh_image : option ImageRead;
  sh_text_frame : option (list Paragraph);
  sh_text : option str
}.

(** A slide of the deck: [sl_title] is [slide.shapes.title], given by the
    identity of the title placeholder and its text; [sl_shapes] is the
    iteration [slide.shapes]; [sl_notes] is the text of the notes frame when
    [slide.notes_slide and slide.notes_slide.notes_text_frame] holds. *)
Record Slide := {
  sl_title : option (nat * str);
  sl_shapes : list Shape;
  sl_notes : option str
}.

Definition Presentation := list Slide.

(** A staged image: the dict with keys [filename] and [image_data]. *)
Record Asset := { filename : str; image_data : list N }.

(** ** parse_powerpoint_slide *)

(** The chained [.replace('<', '&lt;').replace('>', '&gt;')] of lines 66, 92,
    112 and 116. *)
Definition escape (s : str) : str :=
  Py.replace gt (lit "&gt;") (Py.replace lt (lit "&lt;") s).

(** Lines 62-66: the title text, whitespace-normalised and escaped, or the
    empty string when the slide has no title placeholder. *)
Definition deck_title (slide : Slide) : str :=
  match sl_title slide with
  | Some (_, t) => escape (Py.join (lit " ") (Py.split (Py.strip t)))
  | None => []
  end.

(** [shape == slide.shapes.title]. *)
Definition is_title_shape (slide : Slide) (shape : Shape) : bool :=
  match sl_title slide with
  | Some (i, _) => sh_id shape =? i
  | None => false
  end.

(** Line 74. *)
Definition image_filename (slide_num n_images : nat) : str :=
  lit "slide_" ++ Py.str_of_nat (slide_num + 1) ++ lit "_image_"
    ++ Py.str_of_nat (n_images + 1) ++ lit ".png".

(** Lines 88-98. *)
Definition paragraph_entries (paragraphs : list Paragraph) : list Item :=
  flat_map (fun p =>
    let text := Py.strip (p_text p) in
    if Py.truthy text
    then [Tuple (match p_level p with Some l => l | None => 0 end)
                (escape text)]
    else []) paragraphs.

(** Lines 108-117, on the stripped [shape.text]. *)
Definition flat_text_entries (text : str) : list Item :=
  if Py.contains nl text then
    let lines :=
      map Py.strip
          (filter (fun line => Py.truthy (Py.strip line))
                  (Py.split_char nl text)) in
    map (fun line => Tuple 0 (escape line)) lines
  else [Tuple 0 (escape text)].

(** One turn of the loop over [slide.shapes] (lines 69-117) on the two lists
    it grows, [content] and [images], for a shape at which the probe of line
    71 returns (the turn at which it raises is in [probe_shapes]).  When
    reading the blob raises inside the [try] of line 72, the [except] clause
    prints a warning and nothing was appended. *)
Definition shape_step (slide : Slide) (slide_num : nat)
           (acc : list Item * list Asset) (shape : Shape)
  : list Item * list Asset :=
  let '(content, images) := acc in
  match sh_image shape with
  | Some rd =>
      match rd with
      | Blob data =>
          (content,
           images ++ [ {| filename := image_filename slide_num (List.length images);
                          image_data := data |} ])
      | Raises => (content, images)
      end
  | None =>
      match sh_text_frame shape with
      | Some paragraphs =>
          if is_title_shape slide shape then acc
          else (content ++ paragraph_entries paragraphs, images)
      | None =>
          match sh_text shape with
          | Some t =>
              let text := Py.strip t in
              if Py.truthy text then
                if is_title_shape slide shape then acc
                else (content ++ flat_text_entries text, images)
              else acc
          | None => acc
          end
      end
  end.

Definition scan_shapes (slide : Slide) (slide_num : nat)
  : list Item * list Asset :=
  fold_left (shape_step slide slide_num) (sl_shapes slide) ([], []).

(** Lines 123-130. *)
Definition deck_slide_type (slide_num : nat) (title : str)
           (content : list Item) : SlideType :=
  if slide_num =? 0 then TitleSlide
  else if negb (Py.truthy content) && Py.truthy title
       then SectionSlide
  else if 3 <? List.length content then BulletsSlide
  else DefaultSlide.

(** The method on a slide at whose shapes the probe of line 71 returns
    ([parse_powerpoint_slide_probed] is the method on any slide).  It reads
    and extends [self._temp_images]; the list is passed in and returned. *)
Definition parse_powerpoint_slide (temp_images : list Asset) (slide : Slide)
           (slide_num : nat) : SlideContent * list Asset :=
  let title := deck_title slide in
  let '(content, images) := scan_shapes slide slide_num in
  let notes :=
    match sl_notes slide with Some t => Py.strip t | None => [] end in
  let slide_type := deck_slide_type slide_num title content in
  (mkSlide (if Py.truthy title then title
            else lit "Slide " ++ Py.str_of_nat (slide_num + 1))
           content slide_type notes (map filename images),
   temp_images ++ images).

(** The loop of [extract_from_powerpoint] over [enumerate(presentation.slides)];
    an instance of [SlideContent] is always true, so every slide is kept. *)
Fixpoint extract_slides (temp_images : list Asset) (slide_num : nat)
         (deck : Presentation) : list SlideContent * list Asset :=
  match deck with
  | [] => ([], temp_images)
  | slide :: rest =>
      let '(sc, temp1) := parse_powerpoint_slide temp_images slide slide_num in
      let '(scs, temp2) := extract_slides temp1 (S slide_num) rest in
      (sc :: scs, temp2)
  end.

(** ** parse_google_doc_content *)

(** The loop state: [current_slide] and [slides]. *)
Definition DocState : Type := option SlideContent * list SlideContent.

(** [if current_slide: slides.append(current_slide)]. *)
Definition flush (st : DocState) : list SlideContent :=
  match fst st with
  | Some s => snd st ++ [s]
  | None => snd st
  end.

Definition append_content (s : SlideContent) (it : Item) : SlideContent :=
  {| title := title s; content := content s ++ [it];
     slide_type := slide_type s; layout := layout s; notes := notes s;
     images := images s |}.

(** One turn of the loop over the lines (lines 150-185). *)
Definition doc_step (st : DocState) (raw : str) : DocState :=
  let line := Py.strip raw in
  if negb (Py.truthy line) then st
  else if Py.startswith (lit "# ") line then
    (Some (mkSlide (skipn 2 line) [] TitleSlide [] []), flush st)
  else if Py.startswith (lit "## ") line || Py.startswith (lit "### ") line
  then
    (Some (mkSlide (Py.strip (Py.replace hash [] line)) [] SectionSlide [] []),
     flush st)
  else if Py.startswith (lit "* ") line || Py.startswith (lit "- ") line then
    match fst st with
    | Some s => (Some (append_content s (Line line)), snd st)
    | None => (Some (mkSlide (lit "Content") [Line line] BulletsSlide [] []),
               snd st)
    end
  else st.

Definition parse_google_doc_content (text : str) : list SlideContent :=
  flush (fold_left doc_step (Py.split_char nl text) (None, [])).

(** ** generate_frontmatter, convert_slide_to_markdown, add_closing_slide *)

(** A triple-quoted template, line by line. *)
Definition text_lines (l : list str) : str := Py.join [nl] l.

(** The [title:] line of the header: [safe_title] is the title between double
    quotes and nothing else is done to it. *)
Definition title_field (title : str) : str :=
  let safe_title := quoted title in
  lit "title: " ++ safe_title.

Definition generate_frontmatter (title author : str) : str :=
  text_lines
    [ lit "---";
      lit "theme: seriph";
      lit "background: https://source.unsplash.com/1920x1080/?java,programming";
      lit "class: text-center";
      lit "highlighter: shiki";
      lit "lineNumbers: false";
      lit "info: |";
      lit "  ## " ++ title;
      lit "  ";
      lit "  By " ++ author;
      lit "  ";
      lit "  Learn more at [KouseniT](https://kousenit.com)";
      lit "drawings:";
      lit "  persist: false";
      lit "transition: slide-left";
      title_field title;
      lit "mdc: true";
      lit "---" ].

(** One line of the reveal list (lines 235-242 and 262-269). *)
Definition item_line (it : Item) : str :=
  match it with
  | Tuple level text =>
      let indent := Py.repeat_str (lit "  ") level in
      indent ++ lit "- " ++ text ++ [nl]
  | Line item => lit "- " ++ item ++ [nl]
  end.

Definition v_clicks (items : list Item) : str :=
  ([nl] ++ lit "<v-clicks>" ++ [nl; nl]) ++ flat_map item_line items
    ++ ([nl] ++ lit "</v-clicks>").

Definition img_tag (image : str) : str :=
  lit "<img src=" ++ quoted (lit "./" ++ image)
    ++ lit " alt=" ++ quoted (lit "Image")
    ++ lit " style="
    ++ quoted (lit "max-width: 80%; max-height: 400px; margin: 20px auto; display: block;")
    ++ lit " />" ++ [nl; nl].

Definition image_md (imgs : list str) : str :=
  if Py.truthy imgs then [nl; nl] ++ flat_map img_tag imgs else [].

Definition convert_slide_to_markdown (slide : SlideContent) : str :=
  match slide_type slide with
  | TitleSlide =>
      text_lines
        [ [];
          lit "# " ++ title slide;
          [];
          lit "<div class=" ++ quoted (lit "pt-12") ++ lit ">";
          lit "  <span @click=" ++ quoted (lit "$slidev.nav.next")
            ++ lit " class=" ++ quoted (lit "px-2 py-1 rounded cursor-pointer")
            ++ lit " hover=" ++ quoted (lit "bg-white bg-opacity-10")
            ++ lit ">";
          lit "    Press Space for next page <carbon:arrow-right class="
            ++ quoted (lit "inline") ++ lit "/>";
          lit "  </span>";
          lit "</div>";
          [] ]
  | SectionSlide =>
      let content_md :=
        if Py.truthy (content slide) then v_clicks (content slide) else [] in
      text_lines
        [ [];
          lit "# " ++ title slide;
          [];
          content_md ++ image_md (images slide);
          [] ]
  | _ =>
      let content_md := v_clicks (content slide) in
      text_lines
        [ [];
          lit "# " ++ title slide;
          [];
          content_md ++ image_md (images slide);
          [] ]
  end.

Definition add_closing_slide (author : str) : str :=
  text_lines
    [ [];
      lit "# Thank You!";
      [];
      lit "<div class=" ++ quoted (lit "text-center") ++ lit ">";
      [];
      lit "## Questions?";
      [];
      lit "<div class=" ++ quoted (lit "pt-12") ++ lit ">";
      lit "  <span class=" ++ quoted (lit "text-6xl")
        ++ lit "><carbon:logo-github /></span>";
      lit "</div>";
      [];
      lit "**" ++ author ++ lit "**  ";
      lit "*Author, Speaker, Java & AI Expert*";
      [];
      lit "[kousenit.com](https://kousenit.com) | [@kenkousen](https://twitter.com/kenkousen)";
      [];
      lit "</div>";
      [] ].

(** ** sanitize_filename *)

(** The class [[^\w\s-]]. *)
Definition special (u : UCD) (c : char) : bool :=
  negb (Py.isword u c || Py.isspace c || (c =? hyphen)%N).

(** The class [[-\s]]. *)
Definition hyphen_or_space (c : char) : bool :=
  (c =? hyphen)%N || Py.isspace c.

Definition sanitize_filename (u : UCD) (title : str) : str :=
  let clean := Py.re_sub_class (special u) [] title in
  let clean := Py.re_sub_class_plus hyphen_or_space [hyphen] clean in
  Py.lower u clean.

(** ** convert_powerpoint_to_slidev *)

Definition separator : str := lit "---".

Fixpoint enumerate_from {A : Type} (i : nat) (l : list A) : list (nat * A) :=
  match l with
  | [] => []
  | x :: r => (i, x) :: enumerate_from (S i) r
  end.

(** Lines 343-348: the loop that appends to [slidev_content]. *)
Definition append_slide (slidev_content : list str) (p : nat * SlideContent)
  : list str :=
  let '(i, slide) := p in
  let slidev_content :=
    if 0 <? i then slidev_content ++ [separator] else slidev_content in
  slidev_content ++ [convert_slide_to_markdown slide].

(** Lines 337-352: the list [slidev_content] before it is joined. *)
Definition slidev_content (title author : str) (slides : list SlideContent)
  : list str :=
  let blocks := [generate_frontmatter title author] in
  let blocks := fold_left append_slide (enumerate_from 0 slides) blocks in
  let blocks := blocks ++ [separator] in
  blocks ++ [add_closing_slide author].

(** Line 355. *)
Definition full_content (title author : str) (slides : list SlideContent)
  : str :=
  Py.join [nl] (slidev_content title author slides).

(** What the conversion meets outside the program: whether the import of
    python-pptx succeeded ([PPTX_AVAILABLE]); what [Presentation(path)]
    gives ([None] when it raises), for the decks at whose shapes the probe
    of line 71 returns; which directories cannot be made and which files
    cannot be opened for writing; and [pathlib]'s [/] and [.stem]. *)
Record Env := {
  PPTX_AVAILABLE : bool;
  load_presentation : str -> option Presentation;
  mkdir_fails : str -> bool;
  open_fails : str -> bool;
  path_join : str -> str -> str;
  path_stem : str -> str
}.

Inductive Exn :=
| ImportError (msg : str)
| PackageError   (* raised by Presentation(path) *)
| OSError        (* raised by mkdir, by open or by reading a directory *)
| ProbeError.    (* raised by hasattr(shape, 'image'), line 71 *)

(** A call that reaches the file system; the trace lists the calls in the
    order they are made, whether they succeed or raise. *)
Inductive Event :=
| OpenDeck (path : str)
| Mkdir (path : str)
| WriteBytes (path : str) (data : list N)
| WriteText (path : str) (text : str)
| ScanDir (path : str).

(** A computation that may raise and that adds to the trace. *)
Definition IO (A : Type) : Type := list Event -> (Exn + A) * list Event.

Definition ret {A : Type} (a : A) : IO A := fun tr => (inr a, tr).

Definition raise {A : Type} (e : Exn) : IO A := fun tr => (inl e, tr).

Definition bind {A B : Type} (m : IO A) (k : A -> IO B) : IO B :=
  fun tr =>
    match m tr with
    | (inl e, tr') => (inl e, tr')
    | (inr a, tr') => k a tr'
    end.

Definition emit (ev : Event) : IO unit := fun tr => (inr tt, tr ++ [ev]).

(** [try: m  except Exception: pass]. *)
Definition try_except (m : IO unit) : IO unit :=
  fun tr =>
    match m tr with
    | (inl _, tr') => (inr tt, tr')
    | r => r
    end.

Declare Scope io_scope.
Delimit Scope io_scope with io.
Notation "x <- m ;; k" := (bind m (fun x => k))
  (at level 100, m at next level, right associativity) : io_scope.
Notation "m ;;; k" := (bind m (fun _ => k))
  (at level 100, right associativity) : io_scope.
Open Scope io_scope.

Definition extract_from_powerpoint (env : Env) (temp_images : list Asset)
           (pptx_path : str) : IO (list SlideContent * list Asset) :=
  if negb (PPTX_AVAILABLE env) then
    raise (ImportError
             (lit "python-pptx library required for PowerPoint processing"))
  else
    emit (OpenDeck pptx_path) ;;;
    match load_presentation env pptx_path with
    | None => raise PackageError
    | Some presentation => ret (extract_slides temp_images 0 presentation)
    end.

Definition mkdir (env : Env) (path : str) : IO unit :=
  emit (Mkdir path) ;;;
  if mkdir_fails env path then raise OSError else ret tt.

Definition write_bytes (env : Env) (path : str) (data : list N) : IO unit :=
  emit (WriteBytes path data) ;;;
  if open_fails env path then raise OSError else ret tt.

Definition write_text (env : Env) (path : str) (text : str) : IO unit :=
  emit (WriteText path text) ;;;
  if open_fails env path then raise OSError else ret tt.

(** Lines 327-334. *)
Fixpoint save_images (env : Env) (dir : str) (assets : list Asset) : IO unit :=
  match assets with
  | [] => ret tt
  | asset :: rest =>
      try_except
        (write_bytes env (path_join env dir (filename asset))
                     (image_data asset)) ;;;
      save_images env dir rest
  end.

Definition convert_powerpoint_to_slidev (u : UCD) (env : Env)
           (pptx_path output_dir author : str) : IO str :=
  let temp_images : list Asset := [] in
  r <- extract_from_powerpoint env temp_images pptx_path ;;
  let '(slides, temp_images) := r in
  let title :=
    match slides with
    | s :: _ => title s
    | [] => path_stem env pptx_path
    end in
  let presentation_dir := sanitize_filename u title in
  let output_path_obj := path_join env output_dir presentation_dir in
  mkdir env output_path_obj ;;;
  save_images env output_path_obj temp_images ;;;
  let output_path := path_join env output_path_obj (lit "slides.md") in
  write_text env output_path (full_content title author slides) ;;;
  ret output_path.

(** ** The probe of line 71 *)

(** [hasattr(shape, 'image')] evaluates [shape.image] and turns an
    AttributeError, and no other exception, into [False].  The call stands
    outside the [try] of line 72: any other exception of the property (the
    picture class of python-pptx raises ValueError for a picture that links
    its image instead of embedding it) leaves [parse_powerpoint_slide], and
    with it [extract_from_powerpoint] and the conversion, none of which
    catches anything.  [Answers shape]: the probe returned, and [shape] tells
    what it and the later probes found; [ProbeRaises]: it raised. *)
Inductive Probe := Answers (shape : Shape) | ProbeRaises.

(** A slide of the deck, by the probes of its shapes in the order of
    [slide.shapes]; the title and the notes are those of [Slide]. *)
Record ProbedSlide := {
  ps_title : option (nat * str);
  ps_probes : list Probe;
  ps_notes : option str
}.

Definition ProbedDeck := list ProbedSlide.

(** The shapes the loop of line 69 goes through, or the exception of the
    first probe that raises. *)
Fixpoint probe_shapes (probes : list Probe) : Exn + list Shape :=
  match probes with
  | [] => inr []
  | ProbeRaises :: _ => inl ProbeError
  | Answers shape :: rest =>
      match probe_shapes rest with
      | inl e => inl e
      | inr shapes => inr (shape :: shapes)
      end
  end.

(** [parse_powerpoint_slide] on any slide.  A probe that raises ends the
    method inside the loop: lines 133-134 do not run, so nothing is staged
    and no slide is returned.  When every probe returns, the method is
    [parse_powerpoint_slide] above on the shapes found. *)
Definition parse_powerpoint_slide_probed (temp_images : list Asset)
           (slide : ProbedSlide) (slide_num : nat)
  : Exn + (SlideContent * list Asset) :=
  match probe_shapes (ps_probes slide) with
  | inl e => inl e
  | inr shapes =>
      inr (parse_powerpoint_slide
             temp_images
             {| sl_title := ps_title slide; sl_shapes := shapes;
                sl_notes := ps_notes slide |}
             slide_num)
  end.

(** The loop of [extract_from_powerpoint] (lines 47-50): the exception of a
    slide ends it. *)
Fixpoint extract_slides_probed (temp_images : list Asset) (slide_num : nat)
         (deck : ProbedDeck) : Exn + (list SlideContent * list Asset) :=
  match deck with
  | [] => inr ([], temp_images)
  | slide :: rest =>
      match parse_powerpoint_slide_probed temp_images slide slide_num with
      | inl e => inl e
      | inr (sc, temp1) =>
          match extract_slides_probed temp1 (S slide_num) rest with
          | inl e => inl e
          | inr (scs, temp2) => inr (sc :: scs, temp2)
          end
      end
  end.

(** [extract_from_powerpoint] and [convert_powerpoint_to_slidev] on any
    deck: [decks] is what [Presentation(path)] gives, [None] when it
    raises. *)
Definition extract_from_powerpoint_probed (env : Env)
           (decks : str -> option ProbedDeck) (temp_images : list Asset)
           (pptx_path : str) : IO (list SlideContent * list Asset) :=
  if negb (PPTX_AVAILABLE env) then
    raise (ImportError
             (lit "python-pptx library required for PowerPoint processing"))
  else
    emit (OpenDeck pptx_path) ;;;
    match decks pptx_path with
    | None => raise PackageError
    | Some presentation =>
        match extract_slides_probed temp_images 0 presentation with
        | inl e => raise e
        | inr r => ret r
        end
    end.

Definition convert_powerpoint_to_slidev_probed (u : UCD) (env : Env)
           (decks : str -> option ProbedDeck)
           (pptx_path output_dir author : str) : IO str :=
  let temp_images : list Asset := [] in
  r <- extract_from_powerpoint_probed env decks temp_images pptx_path ;;
  let '(slides, temp_images) := r in
  let title :=
    match slides with
    | s :: _ => title s
    | [] => path_stem env pptx_path
    end in
  let presentation_dir := sanitize_filename u title in
  let output_path_obj := path_join env output_dir presentation_dir in
  mkdir env output_path_obj ;;;
  save_images env output_path_obj temp_images ;;;
  let output_path := path_join env output_path_obj (lit "slides.md") in
  write_text env output_path (full_content title author slides) ;;;
  ret output_path.

(** ** class MCPSlidevConverter and main *)

Definition default_author : str := lit "Kenneth Kousen".

(** [convert_from_powerpoint]: the conversion with the default author. *)
Definition convert_from_powerpoint (u : UCD) (env : Env)
           (pptx_path output_dir : str) : IO str :=
  convert_powerpoint_to_slidev u env pptx_path output_dir default_author.

(** [try: a = m ... except Exception: print(...)]: the value of [m], or
    nothing when it raised. *)
Definition attempt {A : Type} (m : IO A) : IO (option A) :=
  fun tr =>
    match m tr with
    | (inl _, tr') => (inr None, tr')
    | (inr a, tr') => (inr (Some a), tr')
    end.

(** The loop of [batch_convert_powerpoints] (lines 396-401) on the files
    that are left and the results so far. *)
Fixpoint batch_loop (u : UCD) (env : Env) (output_dir : str)
         (pptx_files : list str) (results : list str) : IO (list str) :=
  match pptx_files with
  | [] => ret results
  | pptx_file :: rest =>
      r <- attempt (convert_from_powerpoint u env pptx_file output_dir) ;;
      batch_loop u env output_dir rest
                 (match r with
                  | Some result => results ++ [result]
                  | None => results
                  end)
  end.

(** [glob] stands for [Path(pptx_directory).glob("*.pptx")], each path as
    [str] gives it.  Line 394 only makes a generator; the directory is read
    when the [for] of line 396 asks for the first file, which is outside the
    [try] of line 397: [glob] gives [None] when reading the directory raises
    (OSError, as for a name that is too long), and the exception leaves the
    method. *)
Definition batch_convert_powerpoints (u : UCD) (env : Env)
           (glob : str -> option (list str))
           (pptx_directory output_dir : str) : IO (list str) :=
  emit (ScanDir pptx_directory) ;;;
  match glob pptx_directory with
  | None => raise OSError
  | Some pptx_files => batch_loop u env output_dir pptx_files []
  end.

(** An error of the conversion, or the AttributeError of a call to a method
    that the object does not have. *)
Inductive MainExn :=
| Raised (e : Exn)
| AttributeError (msg : str).

(** [convert_from_google_drive_doc] calls [self.converter.convert_to_slidev],
    and class SlidevConverter defines no such method: looking it up raises
    before anything is called. *)
Definition no_such_method : str :=
  lit "'SlidevConverter' object has no attribute 'convert_to_slidev'".

Definition convert_from_google_drive_doc (doc_content title output_dir : str)
  : list Event -> (MainExn + str) * list Event :=
  fun tr => (inl (AttributeError no_such_method), tr).

(** The parsed command line: [--pptx], [--batch] ([None] when not given) and
    [--output]. *)
Record Args := {
  args_pptx : option str;
  args_batch : option str;
  args_output : str
}.

(** [if args.pptx:]. *)
Definition given (a : option str) : bool :=
  match a with
  | Some s => Py.truthy s
  | None => false
  end.

Definition sample_content : str :=
  text_lines
    [ [];
      lit "# ESSENTIAL Generative AI Tips ALL Java Developers NEED To Master in 2025";
      [];
      lit "## Spring AI";
      lit "* If you're invested in the Spring framework, this has everything you need";
      lit "* Use configuration properties to configure multiple AI models";
      [];
      lit "## LangChain4j  ";
      lit "* Define and use AI services. They rock.";
      lit "* The langchain4j-examples repo has a sample for everything";
      [] ].

(** [main], without its prints. *)
Definition main (u : UCD) (env : Env) (glob : str -> option (list str))
           (args : Args)
  : list Event -> (MainExn + unit) * list Event :=
  fun tr =>
    if given (args_pptx args) then
      match convert_from_powerpoint
              u env (match args_pptx args with Some p => p | None => [] end)
              (args_output args) tr with
      | (inl e, tr') => (inl (Raised e), tr')
      | (inr _, tr') => (inr tt, tr')
      end
    else if given (args_batch args) then
      match batch_convert_powerpoints
              u env glob
              (match args_batch args with Some d => d | None => [] end)
              (args_output args) tr with
      | (inl e, tr') => (inl (Raised e), tr')
      | (inr _, tr') => (inr tt, tr')
      end
    else
      match convert_from_google_drive_doc
              sample_content
              (lit "Essential AI Tips for Java Developers 2025")
              (args_output args) tr with
      | (inl e, tr') => (inl e, tr')
      | (inr _, tr') => (inr tt, tr')
      end.

(** ** The specification's side *)

(** The classification as the specification words it: ordinal 0 is a title
    slide; otherwise empty content with a non-empty title is a section;
    otherwise more than three content entries are bullets; otherwise
    default. *)
Definition classify (ordinal : nat) (title_empty : bool)
           (content_length : nat) : SlideType :=
  match ordinal with
  | O => TitleSlide
  | S _ =>
      match content_length with
      | O => if title_empty then DefaultSlide else SectionSlide
      | S (S (S (S _))) => BulletsSlide
      | _ => DefaultSlide
      end
  end.

(** A text without a raw angle bracket. *)
Definition no_angle (s : str) : Prop := ~ In lt s /\ ~ In gt s.

(** Every entry is a text without a raw angle bracket. *)
Definition escaped_items (items : list Item) : Prop :=
  Forall (fun it => no_angle (item_text it)) items.

(** What the plain-markup extractor makes: a title, a section, or the slide
    that collects orphan bullets under the title Content. *)
Definition marker_typed (sc : SlideContent) : Prop :=
  slide_type sc = TitleSlide
  \/ slide_type sc = SectionSlide
  \/ (slide_type sc = BulletsSlide /\ title sc = lit "Content").

(** What one shape adds to the content of its slide. *)
Definition shape_entries (slide : Slide) (shape : Shape) : list Item :=
  fst (shape_step slide 0 ([], []) shape).

(** The bytes of a shape's image when the shape has one that can be read. *)
Definition readable_blob (shape : Shape) : list (list N) :=
  match sh_image shape with
  | Some (Blob data) => [data]
  | _ => []
  end.

(** Staged images numbered from [k] on for slide [slide_num]. *)
Fixpoint number_assets (slide_num k : nat) (blobs : list (list N))
  : list Asset :=
  match blobs with
  | [] => []
  | data :: rest =>
      {| filename := image_filename slide_num k; image_data := data |}
        :: number_assets slide_num (S k) rest
  end.



(** The document as the specification lays it out: the first fragment bare,
    every later fragment behind a separator. *)
Definition separated (fragments : list str) : list str :=
  match fragments with
  | [] => []
  | first :: rest => first :: flat_map (fun f => [separator; f]) rest
  end.

Definition assembled (title author : str) (slides : list SlideContent)
  : list str :=
  generate_frontmatter title author
    :: separated (map convert_slide_to_markdown slides)
    ++ [separator; add_closing_slide author].

(** The number of separator blocks of a block list. *)
Definition count_separators (blocks : list str) : nat :=
  List.length (filter (Py.str_eqb separator) blocks).

(** The number of lines of a text that are a separator. *)
Definition count_separator_lines (text : str) : nat :=
  count_separators (Py.split_char nl text).

(** The character the specification's sanitizer keeps: alphanumeric,
    whitespace or hyphen. *)
Definition isalnum (u : UCD) (c : char) : bool :=
  if Py.is_ascii c then Py.ascii_isalnum c else ucd_isalnum u c.

Definition spec_kept (u : UCD) (c : char) : bool :=
  isalnum u c || Py.isspace c || (c =? hyphen)%N.

(** The character the code's sanitizer keeps: a word character (alphanumeric
    or underscore), whitespace or hyphen. *)
Definition kept (u : UCD) (c : char) : bool :=
  Py.isword u c || Py.isspace c || (c =? hyphen)%N.

(** No run of whitespace and hyphens starts at the head of [s]. *)
Definition run_ended (s : str) : Prop :=
  match s with
  | [] => True
  | c :: _ => hyphen_or_space c = false
  end.

(** [collapsed s t]: [t] is [s] with every maximal run of whitespace and
    hyphens turned into one hyphen. *)
Inductive collapsed : str -> str -> Prop :=
| collapsed_nil : collapsed [] []
| collapsed_char c s t :
    hyphen_or_space c = false ->
    collapsed s t ->
    collapsed (c :: s) (c :: t)
| collapsed_run run s t :
    run <> [] ->
    forallb hyphen_or_space run = true ->
    run_ended s ->
    collapsed s t ->
    collapsed (run ++ s) (hyphen :: t).

(** The code points below U+0080. *)
Definition ascii_table : list char := map N.of_nat (seq 0 128).

(** An ASCII word character, and one that lowercasing leaves alone. *)
Definition ascii_word (c : char) : bool :=
  Py.is_ascii c && (Py.ascii_isalnum c || (c =? underscore)%N).

Definition ascii_lower_word (c : char) : bool :=
  ascii_word c && (Py.ascii_lower c =? c)%N.

(** [tidy ok after_hyphen s]: [s] consists of single hyphens and of
    characters that satisfy [ok]; [after_hyphen] tells that a hyphen
    precedes [s]. *)
Fixpoint tidy (ok : char -> bool) (after_hyphen : bool) (s : str) : bool :=
  match s with
  | [] => true
  | c :: r =>
      if (c =? hyphen)%N then negb after_hyphen && tidy ok true r
      else ok c && tidy ok false r
  end.

(** A well-formed double-quoted value: an opening quote, a body in which
    every double quote and backslash is escaped by a backslash, and a closing
    quote that ends the value.  [quoted_body] reads what follows the opening
    quote. *)
Fixpoint quoted_body (s : str) : bool :=
  match s with
  | [] => false
  | c :: r =>
      if (c =? dquote)%N then negb (Py.truthy r)
      else if (c =? backslash)%N then
        match r with
        | [] => false
        | _ :: r' => quoted_body r'
        end
      else quoted_body r
  end.

Definition well_quoted (s : str) : bool :=
  match s with
  | [] => false
  | c :: r => (c =? dquote)%N && quoted_body r
  end.

(** The document of the plain-markup scenario and two small decks. *)
Definition scenario_doc : str :=
  text_lines [ lit "# My Title"; lit "## Section One";
               lit "* point a"; lit "* point b" ].

Definition text_shape (id : nat) (paragraphs : list str) : Shape :=
  {| sh_id := id; sh_image := None;
     sh_text_frame :=
       Some (map (fun t => {| p_text := t; p_level := Some 0 |}) paragraphs);
     sh_text := Some (Py.join [nl] paragraphs) |}.

Definition picture (id : nat) (rd : ImageRead) : Shape :=
  {| sh_id := id; sh_image := Some rd; sh_text_frame := None;
     sh_text := None |}.

(** A slide with a title, one text box and three pictures, the second of
    which cannot be read. *)
Definition three_pictures : Slide :=
  {| sl_title := Some (1, lit "Gallery");
     sl_shapes :=
       [ text_shape 1 [lit "Gallery"];
         picture 2 (Blob [137; 80]%N);
         text_shape 3 [lit "a < b"];
         picture 4 Raises;
         picture 5 (Blob [255; 216]%N) ];
     sl_notes := Some (lit "say <hello>") |}.

Definition cover : Slide :=
  {| sl_title := Some (1, lit "Say hi");
     sl_shapes := [text_shape 1 [lit "Say hi"]];
     sl_notes := None |}.

(** A title with a quoted word, and a deck whose first slide carries it. *)
Definition quoting_title : str := lit "Say " ++ quoted (lit "hi").

Definition quoting_cover : Slide :=
  {| sl_title := Some (1, quoting_title);
     sl_shapes := [text_shape 1 [quoting_title]];
     sl_notes := None |}.

(** A world in which everything outside the program works; paths are joined
    with a slash. *)
Definition fair_weather (deck : Presentation) : Env :=
  {| PPTX_AVAILABLE := true;
     load_presentation := fun _ => Some deck;
     mkdir_fails := fun _ => false;
     open_fails := fun _ => false;
     path_join := fun a b => a ++ lit "/" ++ b;
     path_stem := fun p => p |}.

(** The same world without python-pptx. *)
Definition no_backend (deck : Presentation) : Env :=
  {| PPTX_AVAILABLE := false;
     load_presentation := fun _ => Some deck;
     mkdir_fails := fun _ => false;
     open_fails := fun _ => false;
     path_join := fun a b => a ++ lit "/" ++ b;
     path_stem := fun p => p |}.

(** ** Notions used by the further properties *)

Definition is_digit (c : char) : bool := Py.in_range 48 57 c.

Definition readable_count (slide : Slide) : nat :=
  List.length (flat_map readable_blob (sl_shapes slide)).

(** The slides of a deck extracted from ordinal [n] on. *)
Definition slides_from (n : nat) (deck : Presentation) : list SlideContent :=
  map (fun p => fst (parse_powerpoint_slide [] (snd p) (fst p)))
      (enumerate_from n deck).

(** A word: non-empty and free of whitespace. *)
Definition word (w : str) : Prop :=
  w <> [] /\ Forall (fun c => Py.isspace c = false) w.

(** Words separated by single spaces. *)
Definition spaced_words (t : str) : Prop :=
  exists ws, ws <> [] /\ Forall word ws /\ t = Py.join (lit " ") ws.

(** A content entry of the deck extractor: a pair with a non-empty text. *)
Definition deck_entry (it : Item) : Prop :=
  exists level text, it = Tuple level text /\ text <> [].

(** A slide without a title placeholder, or with a blank one. *)
Definition untitled (slide : Slide) : Prop :=
  match sl_title slide with
  | None => True
  | Some (_, t) => forallb Py.isspace t = true
  end.

(** What a line is to the extractor. *)
Inductive LineKind := Heading | Bullet | Ignored.

Definition line_kind (raw : str) : LineKind :=
  let line := Py.strip raw in
  if negb (Py.truthy line) then Ignored
  else if Py.startswith (lit "# ") line
          || Py.startswith (lit "## ") line
          || Py.startswith (lit "### ") line then Heading
  else if Py.startswith (lit "* ") line || Py.startswith (lit "- ") line
       then Bullet
  else Ignored.

(** The slide a heading line opens. *)
Definition heading_slide (raw : str) : SlideContent :=
  let line := Py.strip raw in
  if Py.startswith (lit "# ") line
  then mkSlide (skipn 2 line) [] TitleSlide [] []
  else mkSlide (Py.strip (Py.replace hash [] line)) [] SectionSlide [] [].

(** The slide a bullet line leaves open. *)
Definition bullet_slide (cur : option SlideContent) (raw : str)
  : SlideContent :=
  match cur with
  | Some s => append_content s (Line (Py.strip raw))
  | None => mkSlide (lit "Content") [Line (Py.strip raw)] BulletsSlide [] []
  end.

Definition line_kinds (text : str) : list LineKind :=
  map line_kind (Py.split_char nl text).

Definition is_heading (k : LineKind) : bool :=
  match k with Heading => true | _ => false end.

(** The first line that is not ignored is a bullet. *)
Fixpoint starts_with_bullet (ks : list LineKind) : bool :=
  match ks with
  | [] => false
  | Ignored :: r => starts_with_bullet r
  | Bullet :: _ => true
  | Heading :: _ => false
  end.

(** A content entry of the plain-markup extractor: a bullet line, marker
    included. *)
Definition bullet_entry (it : Item) : Prop :=
  exists line,
    it = Line line
    /\ (Py.startswith (lit "* ") line || Py.startswith (lit "- ") line)
       = true.

Definition markup_slide (sc : SlideContent) : Prop :=
  Forall bullet_entry (content sc) /\ notes sc = [] /\ images sc = [].

(** A slide with another type. *)
Definition with_type (s : SlideContent) (ty : SlideType) : SlideContent :=
  {| title := title s; content := content s; slide_type := ty;
     layout := layout s; notes := notes s; images := images s |}.

(** What of a slide can reach the output. *)
Definition rendered_fields (s : SlideContent)
  : str * list Item * SlideType * list str :=
  (title s, content s, slide_type s, images s).

(** A character of a slug: a lowercase letter, a digit, an underscore or a
    hyphen. *)
Definition slug_char (c : char) : bool :=
  Py.in_range 97 122 c || Py.in_range 48 57 c
  || (c =? underscore)%N || (c =? hyphen)%N.

(** No two hyphens side by side. *)
Fixpoint single_hyphens (s : str) : bool :=
  match s with
  | a :: (b :: _) as r =>
      negb ((a =? hyphen)%N && (b =? hyphen)%N) && single_hyphens r
  | _ => true
  end.

(** Line 317: the title of the presentation. *)
Definition presentation_title (env : Env) (pptx_path : str)
           (slides : list SlideContent) : str :=
  match slides with
  | s :: _ => title s
  | [] => path_stem env pptx_path
  end.

(** Lines 320-321: the directory of the presentation. *)
Definition presentation_dir (u : UCD) (env : Env)
           (pptx_path output_dir : str) (deck : Presentation) : str :=
  path_join env output_dir
    (sanitize_filename u
       (presentation_title env pptx_path (fst (extract_slides [] 0 deck)))).

(** The calls that save the staged images of a deck into [dir]. *)
Definition image_writes (env : Env) (dir : str) (deck : Presentation)
  : list Event :=
  map (fun a => WriteBytes (path_join env dir (filename a)) (image_data a))
      (snd (extract_slides [] 0 deck)).

(** The paths a list of calls writes to. *)
Definition written_paths (events : list Event) : list str :=
  flat_map (fun ev => match ev with
                      | WriteBytes path _ => [path]
                      | WriteText path _ => [path]
                      | _ => []
                      end) events.

(** What a conversion started on an empty trace gives, case by case. *)
Definition conversion_outcome (u : UCD) (env : Env)
           (pptx_path output_dir author : str) : (Exn + str) * list Event :=
  if negb (PPTX_AVAILABLE env) then
    (inl (ImportError
            (lit "python-pptx library required for PowerPoint processing")),
     [])
  else
    match load_presentation env pptx_path with
    | None => (inl PackageError, [OpenDeck pptx_path])
    | Some deck =>
        let slides := fst (extract_slides [] 0 deck) in
        let title := presentation_title env pptx_path slides in
        let dir := presentation_dir u env pptx_path output_dir deck in
        let out := path_join env dir (lit "slides.md") in
        if mkdir_fails env dir then
          (inl OSError, [OpenDeck pptx_path; Mkdir dir])
        else
          (if open_fails env out then inl OSError else inr out,
           [OpenDeck pptx_path; Mkdir dir]
             ++ image_writes env dir deck
             ++ [WriteText out (full_content title author slides)])
    end.

(** The result and the calls of one file of a batch, converted on its own
    from an empty trace. *)
Definition file_result (u : UCD) (env : Env) (output_dir pptx_file : str)
  : list str :=
  match fst (convert_from_powerpoint u env pptx_file output_dir []) with
  | inr result => [result]
  | inl _ => []
  end.

Definition file_calls (u : UCD) (env : Env) (output_dir pptx_file : str)
  : list Event :=
  snd (convert_from_powerpoint u env pptx_file output_dir []).

(** A shape that can add content: neither a picture nor the title. *)
Definition content_shape (slide : Slide) (shape : Shape) : bool :=
  match sh_image shape with
  | Some _ => false
  | None => negb (is_title_shape slide shape)
  end.

(** ** Notions of the rewriting of angle brackets *)

(** What the specification has a character rewritten to: the entity for an
    angle bracket, the character itself otherwise. *)
Definition entity (c : char) : str :=
  if (c =? lt)%N then lit "&lt;"
  else if (c =? gt)%N then lit "&gt;"
  else [c].

(** A text with every angle bracket rewritten to its entity, in one pass. *)
Definition entities (s : str) : str := flat_map entity s.

(** The texts of a slide of the deck that can become content: the stripped
    text of a paragraph of a text frame, the stripped text of a shape, and
    the stripped lines of that text. *)
Inductive source_text (slide : Slide) : str -> Prop :=
| paragraph_text shape paragraphs p :
    In shape (sl_shapes slide) ->
    sh_text_frame shape = Some paragraphs ->
    In p paragraphs ->
    source_text slide (Py.strip (p_text p))
| shape_text shape t :
    In shape (sl_shapes slide) ->
    sh_text shape = Some t ->
    source_text slide (Py.strip t)
| shape_line shape t line :
    In shape (sl_shapes slide) ->
    sh_text shape = Some t ->
    In line (Py.split_char nl (Py.strip t)) ->
    source_text slide (Py.strip line).

(** The title text of the placeholder with its whitespace normalised. *)
Definition normalised_title (slide : Slide) : str :=
  match sl_title slide with
  | Some (_, t) => Py.join (lit " ") (Py.split (Py.strip t))
  | None => []
  end.

(** [sc] holds the texts of [slide], the slide of ordinal [k], with their
    angle brackets rewritten: the title is the normalised title text
    rewritten, or the placeholder title when that text is empty; the text of
    every content entry is a text of the slide rewritten. *)
Definition rewritten_from (k : nat) (slide : Slide) (sc : SlideContent)
  : Prop :=
  title sc = (if Py.truthy (normalised_title slide)
              then entities (normalised_title slide)
              else lit "Slide " ++ Py.str_of_nat (k + 1))
  /\ Forall (fun it =>
               exists raw,
                 source_text slide raw /\ item_text it = entities raw)
            (content sc).

(** ** Notions of the probe *)

(** A slide, and a deck, at which every probe returns. *)
Definition answering (slide : Slide) : ProbedSlide :=
  {| ps_title := sl_title slide;
     ps_probes := map Answers (sl_shapes slide);
     ps_notes := sl_notes slide |}.

(** The slide [three_pictures] with a second picture whose probe raises. *)
Definition linked_picture : ProbedSlide :=
  {| ps_title := Some (1, lit "Gallery");
     ps_probes :=
       [ Answers (text_shape 1 [lit "Gallery"]);
         Answers (picture 2 (Blob [137; 80]%N));
         Answers (text_shape 3 [lit "a < b"]);
         ProbeRaises;
         Answers (picture 5 (Blob [255; 216]%N)) ];
     ps_notes := Some (lit "say <hello>") |}.

(** A deck of two slides, the second with that picture. *)
Definition linked_deck : ProbedDeck := [answering cover; linked_picture].

(** ** Notions of the idempotence of the sanitizer *)

(** The lowercase form of one code point between [before] and [after], as
    [Py.lower_from] takes it. *)
Definition lower_at (u : UCD) (before : str) (c : char) (after : str) : str :=
  if Py.is_ascii c then [Py.ascii_lower c] else ucd_lower u before c after.

(** A code point the sanitizer leaves as it is: a word character that is
    neither whitespace nor a hyphen and that lowercasing leaves unchanged
    wherever it stands. *)
Definition settled (u : UCD) (d : char) : Prop :=
  Py.isword u d = true
  /\ hyphen_or_space d = false
  /\ forall before after, lower_at u before d after = [d].

(** A code point whose lowercase form, wherever it stands, is one or more
    settled code points. *)
Definition lowers_to_settled (u : UCD) (c : char) : Prop :=
  forall before after,
    lower_at u before c after <> []
    /\ Forall (settled u) (lower_at u before c after).

(** What idempotence asks of a code point of the title: nothing of an ASCII
    one, of whitespace, or of one that is no word character; of any other,
    that it lowers to settled code points. *)
Definition lowers_well (u : UCD) (c : char) : Prop :=
  Py.is_ascii c = false ->
  Py.isword u c = true ->
  Py.isspace c = false ->
  lowers_to_settled u c.

(** [neat P after_hyphen s]: [s] consists of single hyphens and of code
    points that satisfy [P]; [after_hyphen] tells that a hyphen precedes
    [s]. *)
Fixpoint neat (P : char -> Prop) (after_hyphen : bool) (s : str) : Prop :=
  match s with
  | [] => True
  | c :: r =>
      if (c =? hyphen)%N then after_hyphen = false /\ neat P true r
      else P c /\ neat P false r
  end.

(** The code points below U+0100, and the test, on the tables [latin_db]
    (whose lowercase forms do not depend on what stands around), that a code
    point is settled and that one lowers to settled code points. *)
Definition latin_table : list char := map N.of_nat (seq 0 256).

Definition latin_settled (d : char) : bool :=
  Py.isword latin_db d && negb (hyphen_or_space d)
  && match lower_at latin_db [] d [] with
     | [e] => (e =? d)%N
     | _ => false
     end.

Definition latin_lowers_well (c : char) : bool :=
  implb (negb (Py.is_ascii c) && Py.isword latin_db c)
        (Py.truthy (lower_at latin_db [] c [])
         && forallb latin_settled (lower_at latin_db [] c [])).

(** The title Cafe Creme, with an acute accent on the first e and a grave
    accent on the second, by its code points. *)
Definition cafe_creme : str :=
  [67; 97; 102; 233; 32; 67; 114; 232; 109; 101]%N.

(** ** Notions of the files a conversion writes *)


(** The directories a list of calls reads. *)
Definition scanned_dirs (events : list Event) : list str :=
  flat_map (fun ev => match ev with
                      | ScanDir path => [path]
                      | _ => []
                      end) events.

(** * Proofs *)

(** ** The plain-markup extractor on the scenario document *)

Lemma scenario_slides :
  parse_google_doc_content scenario_doc =
  [ mkSlide (lit "My Title") [] TitleSlide [] [];
    mkSlide (lit "Section One")
            [Line (lit "* point a"); Line (lit "* point b")]
            SectionSlide [] [] ].
Proof. vm_compute. reflexivity. Qed.

(** An orphan bullet opens the slide titled Content; a line with no marker
    is skipped. *)
Example orphan_bullet :
  parse_google_doc_content (text_lines [lit "just text"; lit "- lone point"])
  = [mkSlide (lit "Content") [Line (lit "- lone point")] BulletsSlide [] []].
Proof. reflexivity. Qed.

(** C1, as stated, fails: no reading of the two slides gives the second one
    the content (0, point a), (0, point b); the bullet lines are not stored
    as pairs and keep their marker. *)
Lemma scenario_content_not_pairs :
  ~ exists first second,
      parse_google_doc_content scenario_doc = [first; second]
      /\ title first = lit "My Title"
      /\ slide_type first = TitleSlide
      /\ content first = []
      /\ title second = lit "Section One"
      /\ slide_type second = SectionSlide
      /\ content second = [Tuple 0 (lit "point a"); Tuple 0 (lit "point b")].
Proof.
  intros [first [second [H [_ [_ [_ [_ [_ Hc]]]]]]]].
  rewrite scenario_slides in H. inversion H; subst.
  discriminate Hc.
Qed.

(** C1, amended: the scenario yields exactly two slides, the first titled
    My Title of type title with no content, the second titled Section One of
    type section whose content is the two lines themselves, bullet marker
    included, with no indentation level. *)
Theorem scenario_content_raw_lines :
  exists first second,
    parse_google_doc_content scenario_doc = [first; second]
    /\ title first = lit "My Title"
    /\ slide_type first = TitleSlide
    /\ content first = []
    /\ title second = lit "Section One"
    /\ slide_type second = SectionSlide
    /\ content second = [Line (lit "* point a"); Line (lit "* point b")].
Proof.
  rewrite scenario_slides.
  eexists; eexists; split; [reflexivity|].
  repeat split.
Qed.

(** ** The renderer on title slides *)

(** C10: two title slides with the same title render to the same text,
    whatever their content, notes, layout and images. *)
Theorem title_slide_render_depends_on_title_only :
  forall s1 s2 : SlideContent,
    slide_type s1 = TitleSlide ->
    slide_type s2 = TitleSlide ->
    title s1 = title s2 ->
    convert_slide_to_markdown s1 = convert_slide_to_markdown s2.
Proof.
  intros s1 s2 H1 H2 Ht.
  unfold convert_slide_to_markdown.
  rewrite H1, H2, Ht.
  reflexivity.
Qed.

Lemma title_slide_render_depends_on_title_only_witness :
  let s1 := mkSlide (lit "Intro") [Tuple 0 (lit "hidden")] TitleSlide
                    (lit "n") [lit "slide_1_image_1.png"] in
  let s2 := mkSlide (lit "Intro") [] TitleSlide [] [] in
  s1 <> s2
  /\ convert_slide_to_markdown s1 = convert_slide_to_markdown s2.
Proof.
  split.
  - discriminate.
  - apply title_slide_render_depends_on_title_only; reflexivity.
Defined.

(** ** The missing backend *)

Lemma extract_without_backend :
  forall env temp path tr,
    PPTX_AVAILABLE env = false ->
    extract_from_powerpoint env temp path tr =
    (inl (ImportError
            (lit "python-pptx library required for PowerPoint processing")),
     tr).
Proof.
  intros env temp path tr H.
  unfold extract_from_powerpoint. rewrite H. reflexivity.
Qed.

(** C7: without python-pptx the conversion raises ImportError with the
    message that names the library, an error no other step raises, and the
    trace of file-system calls it leaves is the one it started from: no deck
    was opened, no directory made, no file written. *)
Theorem missing_backend_fails_before_any_file :
  forall u env pptx_path output_dir author tr,
    PPTX_AVAILABLE env = false ->
    let missing :=
      ImportError
        (lit "python-pptx library required for PowerPoint processing") in
    convert_powerpoint_to_slidev u env pptx_path output_dir author tr
    = (inl missing, tr)
    /\ missing <> PackageError
    /\ missing <> OSError.
Proof.
  intros u env pptx_path output_dir author tr H missing.
  split.
  - unfold convert_powerpoint_to_slidev, bind.
    rewrite (extract_without_backend env [] pptx_path tr H). reflexivity.
  - split; discriminate.
Qed.

Lemma missing_backend_fails_before_any_file_witness :
  PPTX_AVAILABLE (no_backend [cover]) = false
  /\ convert_powerpoint_to_slidev latin_db (no_backend [cover])
       (lit "talk.pptx") (lit "out") (lit "Ken") []
     = (inl (ImportError
               (lit "python-pptx library required for PowerPoint processing")),
        []).
Proof.
  split; [reflexivity|].
  apply (missing_backend_fails_before_any_file latin_db
           (no_backend [cover]) (lit "talk.pptx") (lit "out") (lit "Ken")
           [] eq_refl).
Defined.

(** ** Escaping in the deck extractor *)

Lemma in_replace :
  forall old new s c,
    In c (Py.replace old new s) -> In c new \/ (In c s /\ c <> old).
Proof.
  intros old new s c. unfold Py.replace.
  induction s as [|a s IH]; simpl; intros H.
  - contradiction.
  - apply in_app_or in H. destruct H as [H|H].
    + destruct (N.eqb_spec a old) as [E|E].
      * left. exact H.
      * right. destruct H as [H|[]]. subst a.
        split; [left; reflexivity|exact E].
    + destruct (IH H) as [H1|[H1 H2]].
      * left. exact H1.
      * right. split; [right; exact H1|exact H2].
Qed.

Lemma not_in_lit : forall c s, Py.contains c s = false -> ~ In c s.
Proof.
  intros c s H Hin. unfold Py.contains in H.
  assert (existsb (N.eqb c) s = true) as E.
  { apply existsb_exists. exists c. split; [exact Hin|apply N.eqb_refl]. }
  rewrite E in H. discriminate H.
Qed.

Lemma replace_app :
  forall old new a b,
    Py.replace old new (a ++ b) = Py.replace old new a ++ Py.replace old new b.
Proof. intros. unfold Py.replace. apply flat_map_app. Qed.

Lemma escape_app : forall a b, escape (a ++ b) = escape a ++ escape b.
Proof. intros a b. unfold escape. rewrite !replace_app. reflexivity. Qed.

Lemma escape_no_angle : forall s, no_angle (escape s).
Proof.
  intros s. unfold no_angle, escape. split; intros H.
  - apply in_replace in H. destruct H as [H|[H _]].
    + revert H. apply not_in_lit. reflexivity.
    + apply in_replace in H. destruct H as [H|[_ H]].
      * revert H. apply not_in_lit. reflexivity.
      * apply H. reflexivity.
  - apply in_replace in H. destruct H as [H|[_ H]].
    + revert H. apply not_in_lit. reflexivity.
    + apply H. reflexivity.
Qed.

Lemma uint_digits_range :
  forall d c, In c (Py.uint_digits d) -> (48 <= c <= 57)%N.
Proof.
  induction d; simpl; intros c H;
    try contradiction;
    (destruct H as [H|H]; [subst c; unfold Py.digit; simpl; lia|auto]).
Qed.

Lemma no_angle_app : forall s t, no_angle s -> no_angle t -> no_angle (s ++ t).
Proof.
  unfold no_angle. intros s t [H1 H2] [H3 H4].
  split; intros H; apply in_app_or in H; tauto.
Qed.

Lemma str_of_nat_no_angle : forall n, no_angle (Py.str_of_nat n).
Proof.
  intros n. unfold no_angle, Py.str_of_nat.
  split; intros H; apply uint_digits_range in H; unfold lt, gt in H; lia.
Qed.

Lemma placeholder_no_angle :
  forall n, no_angle (lit "Slide " ++ Py.str_of_nat n).
Proof.
  intros n. apply no_angle_app; [|apply str_of_nat_no_angle].
  split; apply not_in_lit; reflexivity.
Qed.

Lemma paragraph_entries_escaped :
  forall paragraphs, escaped_items (paragraph_entries paragraphs).
Proof.
  intros ps. unfold escaped_items, paragraph_entries.
  induction ps as [|p ps IH]; simpl.
  - constructor.
  - apply Forall_app. split; [|exact IH].
    destruct (Py.truthy (Py.strip (p_text p))).
    + constructor; [apply escape_no_angle|constructor].
    + constructor.
Qed.

Lemma flat_text_entries_escaped :
  forall text, escaped_items (flat_text_entries text).
Proof.
  intros text. unfold escaped_items, flat_text_entries.
  destruct (Py.contains nl text).
  - apply Forall_forall. intros it Hin.
    apply in_map_iff in Hin. destruct Hin as [line [E _]]. subst it.
    apply escape_no_angle.
  - constructor; [apply escape_no_angle|constructor].
Qed.

Lemma escaped_items_app :
  forall a b, escaped_items a -> escaped_items b -> escaped_items (a ++ b).
Proof.
  intros a b Ha Hb. unfold escaped_items. apply Forall_app. split; assumption.
Qed.

Create HintDb angle.
#[local] Hint Resolve escape_no_angle placeholder_no_angle
  paragraph_entries_escaped flat_text_entries_escaped escaped_items_app
  : angle.

Lemma shape_step_escaped :
  forall slide n acc shape,
    escaped_items (fst acc) ->
    escaped_items (fst (shape_step slide n acc shape)).
Proof.
  intros slide n [content images] shape H. simpl in H.
  unfold shape_step.
  destruct (sh_image shape) as [[data|]|]; simpl; try exact H.
  destruct (sh_text_frame shape) as [paragraphs|];
    [|destruct (sh_text shape) as [t|]; [|exact H];
      destruct (Py.truthy (Py.strip t)); [|exact H]];
    destruct (is_title_shape slide shape); simpl; auto with angle.
Qed.

Lemma fold_shape_step_escaped :
  forall slide n shapes acc,
    escaped_items (fst acc) ->
    escaped_items (fst (fold_left (shape_step slide n) shapes acc)).
Proof.
  intros slide n shapes.
  induction shapes as [|shape shapes IH]; simpl; intros acc H.
  - exact H.
  - apply IH. apply shape_step_escaped. exact H.
Qed.

Lemma deck_title_no_angle : forall slide, no_angle (deck_title slide).
Proof.
  intros slide. unfold deck_title.
  destruct (sl_title slide) as [[i t]|].
  - apply escape_no_angle.
  - split; intros [].
Qed.

(** The slide [parse_powerpoint_slide] returns, field by field. *)
Lemma parse_powerpoint_slide_fields :
  forall temp slide n,
    let sc := fst (parse_powerpoint_slide temp slide n) in
    title sc = (if Py.truthy (deck_title slide) then deck_title slide
                else lit "Slide " ++ Py.str_of_nat (n + 1))
    /\ content sc = fst (scan_shapes slide n)
    /\ slide_type sc =
       deck_slide_type n (deck_title slide) (fst (scan_shapes slide n))
    /\ images sc = map filename (snd (scan_shapes slide n))
    /\ snd (parse_powerpoint_slide temp slide n)
       = temp ++ snd (scan_shapes slide n).
Proof.
  intros temp slide n. unfold parse_powerpoint_slide.
  destruct (scan_shapes slide n) as [c imgs]. simpl.
  repeat split.
Qed.

Lemma parse_powerpoint_slide_escaped :
  forall temp slide n,
    let sc := fst (parse_powerpoint_slide temp slide n) in
    no_angle (title sc) /\ escaped_items (content sc).
Proof.
  intros temp slide n sc.
  destruct (parse_powerpoint_slide_fields temp slide n) as [Ht [Hc _]].
  fold sc in Ht, Hc. rewrite Ht, Hc. split.
  - destruct (Py.truthy (deck_title slide)).
    + apply deck_title_no_angle.
    + apply placeholder_no_angle.
  - unfold scan_shapes. apply fold_shape_step_escaped. constructor.
Qed.

(** The extracted deck is the per-slide extraction at each ordinal; the
    staged images do not influence it. *)
Lemma extract_slides_map :
  forall deck temp n,
    fst (extract_slides temp n deck) =
    map (fun p => fst (parse_powerpoint_slide [] (snd p) (fst p)))
        (enumerate_from n deck).
Proof.
  induction deck as [|slide deck IH]; intros temp n; simpl.
  - reflexivity.
  - destruct (parse_powerpoint_slide temp slide n) as [sc temp1] eqn:E.
    specialize (IH temp1 (S n)).
    destruct (extract_slides temp1 (S n) deck) as [scs temp2].
    simpl in *. rewrite IH. f_equal.
    assert (sc = fst (parse_powerpoint_slide temp slide n)) as ->
        by (rewrite E; reflexivity).
    unfold parse_powerpoint_slide.
    destruct (scan_shapes slide n); reflexivity.
Qed.

(** ** Classification *)

Lemma deck_slide_type_classify :
  forall n t (c : list Item),
    deck_slide_type n t c = classify n (negb (Py.truthy t)) (List.length c).
Proof.
  intros n t c. unfold deck_slide_type, classify.
  destruct n as [|n]; [reflexivity|].
  destruct c as [|i1 [|i2 [|i3 [|i4 c]]]]; destruct t; reflexivity.
Qed.

Lemma doc_step_marker_typed :
  forall st raw,
    Forall marker_typed (flush st) ->
    Forall marker_typed (flush (doc_step st raw)).
Proof.
  intros [cur slides] raw H. unfold doc_step.
  destruct (negb (Py.truthy (Py.strip raw))); [exact H|].
  destruct (Py.startswith (lit "# ") (Py.strip raw)).
  { unfold flush at 1. simpl fst. simpl snd.
    apply Forall_app. split; [exact H|].
    constructor; [left; reflexivity|constructor]. }
  destruct (Py.startswith (lit "## ") (Py.strip raw)
            || Py.startswith (lit "### ") (Py.strip raw)).
  { unfold flush at 1. simpl fst. simpl snd.
    apply Forall_app. split; [exact H|].
    constructor; [right; left; reflexivity|constructor]. }
  destruct (Py.startswith (lit "* ") (Py.strip raw)
            || Py.startswith (lit "- ") (Py.strip raw)); [|exact H].
  unfold flush in *. simpl in *.
  destruct cur as [s|]; simpl.
  - apply Forall_app in H. destruct H as [H1 H2].
    apply Forall_app. split; [exact H1|].
    inversion H2; subst. constructor; [|constructor].
    unfold marker_typed, append_content in *. simpl. assumption.
  - apply Forall_app. split; [exact H|].
    constructor; [|constructor].
    right; right. split; reflexivity.
Qed.

Lemma fold_doc_step_marker_typed :
  forall lines st,
    Forall marker_typed (flush st) ->
    Forall marker_typed (flush (fold_left doc_step lines st)).
Proof.
  induction lines as [|raw lines IH]; simpl; intros st H.
  - exact H.
  - apply IH. apply doc_step_marker_typed. exact H.
Qed.

(** C3, as stated, fails: the second slide of the scenario document has
    ordinal 1 and two content entries, which the classification calls
    default, and the plain-markup extractor types it section. *)
Lemma section_type_not_from_shape :
  exists sc,
    nth_error (parse_google_doc_content scenario_doc) 1 = Some sc
    /\ slide_type sc = SectionSlide
    /\ classify 1 (negb (Py.truthy (title sc))) (List.length (content sc))
       = DefaultSlide.
Proof.
  rewrite scenario_slides. eexists. split; [reflexivity|].
  split; reflexivity.
Qed.

(** C3, amended: the deck extractor produces, at each ordinal, the slide of
    [parse_powerpoint_slide], and the type of that slide is the
    classification of the ordinal, the emptiness of the title read from the
    deck (before the placeholder title is substituted) and the number of
    content entries.  The plain-markup extractor does not classify: each of
    its slides is a title, a section, or the orphan-bullet slide titled
    Content, and never default. *)
Theorem deck_slide_type_is_classification :
  (forall temp deck,
      fst (extract_slides temp 0 deck) =
      map (fun p => fst (parse_powerpoint_slide [] (snd p) (fst p)))
          (enumerate_from 0 deck))
  /\ (forall temp slide n,
         let sc := fst (parse_powerpoint_slide temp slide n) in
         slide_type sc =
         classify n (negb (Py.truthy (deck_title slide)))
                  (List.length (content sc)))
  /\ (forall text, Forall marker_typed (parse_google_doc_content text)).
Proof.
  split; [|split].
  - intros temp deck. apply extract_slides_map.
  - intros temp slide n sc.
    destruct (parse_powerpoint_slide_fields temp slide n) as [_ [Hc [Hty _]]].
    fold sc in Hc, Hty. rewrite Hty, Hc.
    apply deck_slide_type_classify.
  - intros text. unfold parse_google_doc_content.
    apply fold_doc_step_marker_typed. constructor.
Qed.

(** ** A failing image *)

Section Scan.

(** The slide being scanned and its ordinal. *)
Variable slide : Slide.
Variable slide_num : nat.

Lemma number_assets_app :
  forall blobs1 blobs2 k,
    number_assets slide_num k (blobs1 ++ blobs2) =
    number_assets slide_num k blobs1
      ++ number_assets slide_num (k + List.length blobs1) blobs2.
Proof.
  intros blobs1 blobs2.
  induction blobs1 as [|d blobs1 IH]; simpl; intros k.
  - rewrite Nat.add_0_r. reflexivity.
  - rewrite IH. do 3 f_equal. lia.
Qed.

Lemma number_assets_length :
  forall blobs k,
    List.length (number_assets slide_num k blobs) = List.length blobs.
Proof.
  intros blobs. induction blobs as [|d blobs IH]; simpl; intros k.
  - reflexivity.
  - rewrite IH. reflexivity.
Qed.

(** One turn of the loop appends what the shape contributes. *)
Lemma shape_step_decompose :
  forall c imgs shape,
    shape_step slide slide_num (c, imgs) shape =
    (c ++ shape_entries slide shape,
     imgs ++ number_assets slide_num (List.length imgs) (readable_blob shape)).
Proof.
  intros c imgs shape.
  unfold shape_entries, readable_blob, shape_step.
  destruct (sh_image shape) as [[data|]|]; simpl.
  - rewrite ?app_nil_r. reflexivity.
  - rewrite ?app_nil_r. reflexivity.
  - destruct (sh_text_frame shape) as [paragraphs|].
    + destruct (is_title_shape slide shape); simpl;
        rewrite ?app_nil_r; reflexivity.
    + destruct (sh_text shape) as [t|]; simpl.
      * destruct (Py.truthy (Py.strip t));
          [destruct (is_title_shape slide shape)|]; simpl;
          rewrite ?app_nil_r; reflexivity.
      * rewrite ?app_nil_r. reflexivity.
Qed.

(** The loop over the shapes, in closed form: the content is what the shapes
    contribute in order, and the staged images are the readable blobs in
    order, numbered on from those already there. *)
Lemma fold_shape_step_decompose :
  forall shapes c imgs,
    fold_left (shape_step slide slide_num) shapes (c, imgs) =
    (c ++ flat_map (shape_entries slide) shapes,
     imgs ++ number_assets slide_num (List.length imgs)
                           (flat_map readable_blob shapes)).
Proof.
  intros shapes.
  induction shapes as [|shape shapes IH]; intros c imgs;
    cbn [fold_left flat_map].
  - rewrite ?app_nil_r. reflexivity.
  - rewrite shape_step_decompose, IH.
    rewrite <- !app_assoc. f_equal. f_equal.
    rewrite number_assets_app. f_equal. f_equal.
    rewrite length_app, number_assets_length. reflexivity.
Qed.

Lemma scan_shapes_decompose :
  scan_shapes slide slide_num =
  (flat_map (shape_entries slide) (sl_shapes slide),
   number_assets slide_num 0 (flat_map readable_blob (sl_shapes slide))).
Proof.
  unfold scan_shapes. rewrite fold_shape_step_decompose. reflexivity.
Qed.

End Scan.




Lemma nth_error_enumerate_from :
  forall (A : Type) (l : list A) k i x,
    nth_error l i = Some x ->
    nth_error (enumerate_from k l) i = Some (k + i, x).
Proof.
  intros A l. induction l as [|a l IH]; intros k i x H.
  - destruct i; discriminate H.
  - destruct i as [|i]; simpl in *.
    + inversion H. rewrite Nat.add_0_r. reflexivity.
    + rewrite (IH (S k) i x H). do 2 f_equal. lia.
Qed.


(** Saving the images never raises: a failed write is caught. *)
Lemma save_images_trace :
  forall env dir assets tr,
    save_images env dir assets tr =
    (inr tt,
     tr ++ map (fun a => WriteBytes (path_join env dir (filename a))
                                    (image_data a)) assets).
Proof.
  intros env dir assets.
  induction assets as [|a assets IH]; intros tr; simpl.
  - rewrite app_nil_r. reflexivity.
  - unfold bind, try_except, write_bytes, bind, emit.
    destruct (open_fails env (path_join env dir (filename a))); simpl;
      rewrite IH, <- app_assoc; reflexivity.
Qed.


(** The conversion in closed form. *)
Lemma convert_outcome :
  forall u env pptx_path output_dir author tr,
    convert_powerpoint_to_slidev u env pptx_path output_dir author tr =
    (fst (conversion_outcome u env pptx_path output_dir author),
     tr ++ snd (conversion_outcome u env pptx_path output_dir author)).
Proof.
  intros u env pptx_path output_dir author tr.
  unfold convert_powerpoint_to_slidev, extract_from_powerpoint,
    conversion_outcome, presentation_dir, presentation_title, image_writes.
  destruct (PPTX_AVAILABLE env); simpl negb; cbv iota.
  2:{ unfold bind, raise. cbn [fst snd]. rewrite app_nil_r. reflexivity. }
  unfold bind at 1. unfold bind at 1. unfold emit at 1.
  destruct (load_presentation env pptx_path) as [deck|].
  2:{ unfold raise. reflexivity. }
  unfold ret at 1.
  destruct (extract_slides [] 0 deck) as [slides staged]. cbn [fst snd].
  unfold bind at 1. unfold mkdir, bind at 1, emit.
  match goal with
  | |- context [mkdir_fails env ?d] => destruct (mkdir_fails env d)
  end.
  { unfold raise. cbn [fst snd]. rewrite <- app_assoc. reflexivity. }
  unfold ret at 1. unfold bind at 1. rewrite save_images_trace.
  unfold bind at 1. unfold write_text, bind at 1, emit.
  match goal with
  | |- context [open_fails env ?p] => destruct (open_fails env p)
  end; unfold raise, ret; cbn [fst snd]; rewrite <- !app_assoc; reflexivity.
Qed.

Lemma parse_powerpoint_slide_closed_form :
  forall temp slide n,
    parse_powerpoint_slide temp slide n =
    (let title := deck_title slide in
     let content := flat_map (shape_entries slide) (sl_shapes slide) in
     let staged :=
       number_assets n 0 (flat_map readable_blob (sl_shapes slide)) in
     (mkSlide (if Py.truthy title then title
               else lit "Slide " ++ Py.str_of_nat (n + 1))
              content (deck_slide_type n title content)
              (match sl_notes slide with
               | Some t => Py.strip t
               | None => []
               end)
              (map filename staged),
      temp ++ staged)).
Proof.
  intros temp slide n. unfold parse_powerpoint_slide.
  rewrite scan_shapes_decompose. reflexivity.
Qed.



(** *** The probe *)





(** A probe that raises ends the method. *)
Lemma probe_shapes_raises :
  forall probes, In ProbeRaises probes -> probe_shapes probes = inl ProbeError.
Proof.
  induction probes as [|p probes IH]; intros H.
  - contradiction.
  - destruct p as [shape|]; [|reflexivity].
    destruct H as [H|H]; [discriminate H|].
    cbn [probe_shapes]. rewrite (IH H). reflexivity.
Qed.

(** The only exception of the loop over the shapes is that of a probe. *)
Lemma probe_shapes_error :
  forall probes e, probe_shapes probes = inl e -> e = ProbeError.
Proof.
  induction probes as [|p probes IH]; intros e H.
  - discriminate H.
  - destruct p as [shape|]; cbn [probe_shapes] in H.
    + destruct (probe_shapes probes) as [e'|shapes]; [|discriminate H].
      inversion H; subst. apply IH. reflexivity.
    + inversion H. reflexivity.
Qed.

(** A slide with a probe that raises ends the loop over the slides,
    wherever it stands in the deck. *)
Lemma extract_slides_probed_raises :
  forall deck temp n,
    Exists (fun slide => In ProbeRaises (ps_probes slide)) deck ->
    extract_slides_probed temp n deck = inl ProbeError.
Proof.
  induction deck as [|slide deck IH]; intros temp n H.
  - inversion H.
  - cbn [extract_slides_probed]. unfold parse_powerpoint_slide_probed.
    destruct (probe_shapes (ps_probes slide)) as [e|shapes] eqn:E.
    + rewrite (probe_shapes_error _ e E). reflexivity.
    + inversion H as [? ? Hhere|? ? Hlater]; subst.
      * rewrite (probe_shapes_raises _ Hhere) in E. discriminate E.
      * destruct (parse_powerpoint_slide _ _ n) as [sc temp1].
        rewrite (IH temp1 (S n) Hlater). reflexivity.
Qed.




(** ** The rewriting of angle brackets *)

(** The two chained replacements rewrite every angle bracket, and nothing
    else, in one pass: the entity the first one writes holds no bracket the
    second one would rewrite. *)
Lemma escape_entities : forall s, escape s = entities s.
Proof.
  induction s as [|c s IH]; [reflexivity|].
  change (c :: s) with ([c] ++ s). rewrite escape_app, IH.
  unfold entities. cbn [flat_map app]. f_equal.
  unfold escape, Py.replace, entity. cbn [flat_map app].
  destruct (N.eqb_spec c lt) as [E|E].
  - reflexivity.
  - rewrite app_nil_r. cbn [flat_map app].
    destruct (c =? gt)%N; reflexivity.
Qed.

Lemma entities_truthy :
  forall s, Py.truthy (entities s) = Py.truthy s.
Proof.
  intros [|c s]; [reflexivity|].
  unfold entities. cbn [flat_map]. unfold entity.
  destruct (c =? lt)%N; [reflexivity|].
  destruct (c =? gt)%N; reflexivity.
Qed.

Lemma deck_title_entities :
  forall slide, deck_title slide = entities (normalised_title slide).
Proof.
  intros slide. unfold deck_title, normalised_title.
  destruct (sl_title slide) as [[i t]|]; [apply escape_entities|reflexivity].
Qed.

(** Every entry a shape contributes is a text of the slide rewritten. *)
Lemma shape_entries_from_source :
  forall slide shape it,
    In shape (sl_shapes slide) ->
    In it (shape_entries slide shape) ->
    exists raw, source_text slide raw /\ item_text it = entities raw.
Proof.
  intros slide shape it Hshape Hin.
  unfold shape_entries, shape_step in Hin.
  destruct (sh_image shape) as [[data|]|]; try contradiction.
  destruct (sh_text_frame shape) as [paragraphs|] eqn:Eframe.
  - destruct (is_title_shape slide shape); [contradiction|].
    cbn [fst app] in Hin. unfold paragraph_entries in Hin.
    apply in_flat_map in Hin. destruct Hin as [p [Hp Hin]].
    destruct (Py.truthy (Py.strip (p_text p))); [|contradiction].
    destruct Hin as [<-|[]].
    exists (Py.strip (p_text p)). split.
    + apply (paragraph_text slide shape paragraphs p); assumption.
    + apply escape_entities.
  - destruct (sh_text shape) as [t|] eqn:Etext; [|contradiction].
    destruct (Py.truthy (Py.strip t)); [|contradiction].
    destruct (is_title_shape slide shape); [contradiction|].
    cbn [fst app] in Hin. unfold flat_text_entries in Hin.
    destruct (Py.contains nl (Py.strip t)).
    + apply in_map_iff in Hin. destruct Hin as [stripped [<- Hin]].
      apply in_map_iff in Hin. destruct Hin as [line [<- Hin]].
      apply filter_In in Hin. destruct Hin as [Hline _].
      exists (Py.strip line). split.
      * apply (shape_line slide shape t line); assumption.
      * apply escape_entities.
    + destruct Hin as [<-|[]].
      exists (Py.strip t). split.
      * apply (shape_text slide shape t); assumption.
      * apply escape_entities.
Qed.

Lemma parse_powerpoint_slide_rewritten :
  forall temp slide n,
    rewritten_from n slide (fst (parse_powerpoint_slide temp slide n)).
Proof.
  intros temp slide n. unfold rewritten_from. split.
  - destruct (parse_powerpoint_slide_fields temp slide n) as [Ht _].
    rewrite Ht, deck_title_entities, entities_truthy. reflexivity.
  - rewrite parse_powerpoint_slide_closed_form. cbn [fst mkSlide content].
    apply Forall_forall. intros it Hin.
    apply in_flat_map in Hin. destruct Hin as [shape [Hshape Hin]].
    apply (shape_entries_from_source slide shape it Hshape Hin).
Qed.

Lemma Forall2_map_image :
  forall (A B : Type) (R : A -> B -> Prop) (f : A -> B) l,
    (forall x, R x (f x)) -> Forall2 R l (map f l).
Proof.
  intros A B R f l H. induction l as [|x l IH]; simpl; constructor; auto.
Qed.

(** C2, as stated, fails: the plain-markup extractor keeps a raw angle
    bracket in a title and in a content line, and the deck extractor keeps
    one in the notes. *)
Lemma raw_angle_bracket_survives :
  (exists sc, In sc (parse_google_doc_content
                       (text_lines [lit "# a<b"; lit "* x > y"]))
              /\ In lt (title sc)
              /\ exists it, In it (content sc) /\ In gt (item_text it))
  /\ In lt (notes (fst (parse_powerpoint_slide [] three_pictures 0))).
Proof.
  split.
  - exists (mkSlide (lit "a<b") [Line (lit "* x > y")] TitleSlide [] []).
    split; [vm_compute; left; reflexivity|].
    split; [vm_compute; tauto|].
    exists (Line (lit "* x > y")). split; [left; reflexivity|vm_compute; tauto].
  - vm_compute. tauto.
Qed.

(** C2, amended: in every slide the deck extractor produces, the title and
    the text of every content entry contain no raw angle bracket, and they
    are texts of the slide of the deck with every angle bracket rewritten to
    its entity and nothing else changed: the title is the normalised text of
    the title placeholder rewritten (or the placeholder title Slide N), and
    the text of every content entry is a stripped paragraph, text or line of
    a shape rewritten. *)
Theorem deck_title_and_content_escaped :
  forall temp n deck,
    Forall (fun sc => no_angle (title sc) /\ escaped_items (content sc))
           (fst (extract_slides temp n deck))
    /\ Forall2 (fun p sc => rewritten_from (fst p) (snd p) sc)
               (enumerate_from n deck)
               (fst (extract_slides temp n deck)).
Proof.
  intros temp n deck. rewrite extract_slides_map. split.
  - apply Forall_forall. intros sc Hin.
    apply in_map_iff in Hin. destruct Hin as [[i slide] [E _]]. subst sc.
    apply parse_powerpoint_slide_escaped.
  - apply Forall2_map_image. intros [k slide].
    apply parse_powerpoint_slide_rewritten.
Qed.

(** ** The assembled document *)

Lemma fold_append_slide_later :
  forall slides i blocks,
    fold_left append_slide (enumerate_from (S i) slides) blocks =
    blocks
      ++ flat_map (fun f => [separator; f])
                  (map convert_slide_to_markdown slides).
Proof.
  induction slides as [|s slides IH]; intros i blocks; simpl.
  - rewrite app_nil_r. reflexivity.
  - rewrite IH. rewrite <- !app_assoc. reflexivity.
Qed.

Lemma fold_append_slide :
  forall slides blocks,
    fold_left append_slide (enumerate_from 0 slides) blocks =
    blocks ++ separated (map convert_slide_to_markdown slides).
Proof.
  intros [|s slides] blocks; simpl.
  - rewrite app_nil_r. reflexivity.
  - rewrite fold_append_slide_later. rewrite <- app_assoc. reflexivity.
Qed.

Lemma slidev_content_assembled :
  forall title author slides,
    slidev_content title author slides = assembled title author slides.
Proof.
  intros title author slides. unfold slidev_content, assembled.
  rewrite fold_append_slide. simpl. rewrite <- !app_assoc. reflexivity.
Qed.

Lemma fragment_not_separator :
  forall s, Py.str_eqb separator (convert_slide_to_markdown s) = false.
Proof.
  intros s. unfold convert_slide_to_markdown.
  destruct (slide_type s); reflexivity.
Qed.

Lemma header_not_separator :
  forall title author,
    Py.str_eqb separator (generate_frontmatter title author) = false.
Proof. reflexivity. Qed.

Lemma closing_not_separator :
  forall author, Py.str_eqb separator (add_closing_slide author) = false.
Proof. reflexivity. Qed.

Lemma count_separators_app :
  forall a b,
    count_separators (a ++ b) = count_separators a + count_separators b.
Proof.
  intros a b. unfold count_separators.
  rewrite filter_app, length_app. reflexivity.
Qed.

Lemma count_separators_later :
  forall slides,
    count_separators
      (flat_map (fun f => [separator; f])
                (map convert_slide_to_markdown slides))
    = List.length slides.
Proof.
  induction slides as [|s slides IH].
  - reflexivity.
  - cbn [map flat_map].
    change ([separator; convert_slide_to_markdown s] ++ ?r)
      with ([separator] ++ [convert_slide_to_markdown s] ++ r).
    rewrite !count_separators_app, IH.
    unfold count_separators at 2. cbn [filter].
    rewrite fragment_not_separator. reflexivity.
Qed.

(** C5, as stated, fails under both readings of its count: an empty deck has
    one separator block, not none (N); a deck of one slide has one separator
    block, not two (N plus the closing one).  Counting lines of the output
    instead does not help: for the empty deck three lines are a separator,
    the two that delimit the header and the closing one. *)
Lemma separators_not_one_per_slide :
  let s := mkSlide (lit "Only") [] TitleSlide [] [] in
  count_separators (slidev_content (lit "T") (lit "A") [])
    <> List.length (@nil SlideContent)
  /\ count_separators (slidev_content (lit "T") (lit "A") [s])
    <> S (List.length [s])
  /\ count_separator_lines (full_content (lit "T") (lit "A") []) = 3.
Proof.
  split; [|split]; vm_compute; try discriminate; reflexivity.
Qed.

(** C5, amended: the blocks are the header, the rendered slides in source
    order with a separator before every slide but the first, a final
    separator and the closing slide; the output is these blocks joined by one
    newline; the separator blocks number N - 1 between the slides plus the
    closing one, N in all for N >= 1 slides, and one for an empty deck. *)
Theorem document_layout :
  forall title author slides,
    slidev_content title author slides = assembled title author slides
    /\ full_content title author slides
       = Py.join [nl] (assembled title author slides)
    /\ count_separators (separated (map convert_slide_to_markdown slides))
       = List.length slides - 1
    /\ count_separators (slidev_content title author slides)
       = Nat.max 1 (List.length slides).
Proof.
  intros title author slides.
  assert (count_separators (separated (map convert_slide_to_markdown slides))
          = List.length slides - 1) as Hmid.
  { destruct slides as [|s slides]; [reflexivity|].
    cbn [map separated].
    change (?f :: ?r) with ([f] ++ r).
    rewrite count_separators_app, count_separators_later.
    unfold count_separators. cbn [filter].
    rewrite fragment_not_separator. simpl. lia. }
  split; [apply slidev_content_assembled|].
  split; [unfold full_content; rewrite slidev_content_assembled; reflexivity|].
  split; [exact Hmid|].
  rewrite slidev_content_assembled. unfold assembled.
  change (?h :: ?m ++ [separator; ?c]) with ([h] ++ m ++ [separator; c]).
  rewrite !count_separators_app, Hmid.
  unfold count_separators at 1. cbn [filter].
  rewrite header_not_separator.
  unfold count_separators. cbn [filter].
  rewrite closing_not_separator.
  change (Py.str_eqb separator separator) with true. simpl.
  destruct slides; simpl; lia.
Qed.

(** ** The filename sanitizer *)

(** Splits every boolean conjunction among the hypotheses. *)
Ltac split_andb :=
  repeat match goal with
         | H : (_ && _)%bool = true |- _ =>
             apply andb_prop in H; destruct H
         end.

(** *** Runs of whitespace and hyphens *)

(** The second substitution collapses the runs: the statement carries both
    states of the scan, outside a run and inside one. *)
Lemma sub_runs_collapsed :
  forall s,
    collapsed s (Py.sub_runs hyphen_or_space [hyphen] false s)
    /\ (forall run,
           run <> [] ->
           forallb hyphen_or_space run = true ->
           collapsed (run ++ s)
                     (hyphen :: Py.sub_runs hyphen_or_space [hyphen] true s)).
Proof.
  induction s as [|c s [IH1 IH2]].
  - split.
    + constructor.
    + intros run Hne Hall. simpl. apply collapsed_run; try assumption.
      * exact I.
      * constructor.
  - destruct (hyphen_or_space c) eqn:Hc; simpl; rewrite Hc; simpl.
    + split.
      * apply (IH2 [c]); [discriminate|simpl; rewrite Hc; reflexivity].
      * intros run Hne Hall.
        replace (run ++ c :: s) with ((run ++ [c]) ++ s)
          by (rewrite <- app_assoc; reflexivity).
        apply IH2.
        -- destruct run; discriminate.
        -- rewrite forallb_app, Hall. simpl. rewrite Hc. reflexivity.
    + split.
      * constructor; assumption.
      * intros run Hne Hall. apply collapsed_run; try assumption.
        constructor; assumption.
Qed.

(** A text splits in one way only into a leading run and a rest that starts
    outside a run. *)
Lemma run_split_unique :
  forall run1 run2 s1 s2,
    forallb hyphen_or_space run1 = true ->
    forallb hyphen_or_space run2 = true ->
    run_ended s1 -> run_ended s2 ->
    run1 ++ s1 = run2 ++ s2 ->
    run1 = run2 /\ s1 = s2.
Proof.
  induction run1 as [|c run1 IH]; intros run2 s1 s2 H1 H2 E1 E2 H.
  - destruct run2 as [|c2 run2]; [split; [reflexivity|exact H]|].
    simpl in H. subst s1. simpl in E1, H2. split_andb. congruence.
  - destruct run2 as [|c2 run2].
    + simpl in H. subst s2. simpl in E2, H1. split_andb. congruence.
    + simpl in H, H1, H2. inversion H; subst. split_andb.
      destruct (IH run2 s1 s2) as [-> ->]; tauto.
Qed.

(** [collapsed] relates a text to one result only. *)
Lemma collapsed_functional :
  forall s t1, collapsed s t1 -> forall t2, collapsed s t2 -> t1 = t2.
Proof.
  intros s t1 H. induction H as [|c s t Hc H IH|run s t Hne Hall Hend H IH];
    intros t2 H2.
  - remember [] as w eqn:Ew. destruct H2 as [|c s t Hc H2|run s t Hne ? ? H2].
    + reflexivity.
    + discriminate Ew.
    + destruct run; [contradiction Hne; reflexivity|discriminate Ew].
  - remember (c :: s) as w eqn:Ew.
    destruct H2 as [|c' s' t' Hc' H2|run s' t' Hne Hall ? H2].
    + discriminate Ew.
    + inversion Ew; subst. f_equal. apply IH. exact H2.
    + destruct run as [|c' run]; [contradiction Hne; reflexivity|].
      simpl in Ew, Hall. inversion Ew; subst. split_andb. congruence.
  - remember (run ++ s) as w eqn:Ew.
    destruct H2 as [|c' s' t' Hc' H2|run' s' t' Hne' Hall' Hend' H2].
    + destruct run; [contradiction Hne; reflexivity|discriminate Ew].
    + destruct run as [|c run]; [contradiction Hne; reflexivity|].
      simpl in Ew, Hall. inversion Ew; subst. split_andb. congruence.
    + destruct (run_split_unique run' run s' s Hall' Hall Hend' Hend Ew)
        as [_ Es].
      subst s'. f_equal. apply IH. exact H2.
Qed.

(** *** ASCII characters *)

Lemma ascii_cases :
  forall P : char -> bool,
    forallb P ascii_table = true ->
    forall c, Py.is_ascii c = true -> P c = true.
Proof.
  intros P H c Hc.
  rewrite forallb_forall in H. apply H.
  unfold ascii_table. apply in_map_iff.
  exists (N.to_nat c). split.
  - apply N2Nat.id.
  - apply in_seq. unfold Py.is_ascii in Hc.
    apply N.ltb_lt in Hc. lia.
Qed.

Lemma ascii_word_is_ascii :
  forall c, ascii_word c = true -> Py.is_ascii c = true.
Proof. intros c H. unfold ascii_word in H. split_andb. assumption. Qed.

(** What the scan relies on about an ASCII word character: it is no
    whitespace and no hyphen, and its lowercase form is an ASCII word
    character, no hyphen either, that lowercasing leaves alone. *)
Lemma ascii_word_facts :
  forall c,
    ascii_word c = true ->
    Py.isspace c = false
    /\ (c =? hyphen)%N = false
    /\ ascii_lower_word (Py.ascii_lower c) = true
    /\ (Py.ascii_lower c =? hyphen)%N = false.
Proof.
  intros c Hw.
  pose proof
       (ascii_cases
          (fun c => implb (ascii_word c)
                          (negb (Py.isspace c) && negb (c =? hyphen)%N
                           && ascii_lower_word (Py.ascii_lower c)
                           && negb (Py.ascii_lower c =? hyphen)%N))
          eq_refl c (ascii_word_is_ascii c Hw)) as H.
  cbv beta in H. rewrite Hw in H. simpl in H. split_andb.
  repeat match goal with
         | h : negb _ = true |- _ => apply negb_true_iff in h
         end.
  repeat split; assumption.
Qed.

Lemma hyphen_is_ascii : Py.is_ascii hyphen = true.
Proof. reflexivity. Qed.

Section Sanitizer.

(** The Unicode tables: the results below hold for any. *)
Variable u : UCD.

Lemma re_sub_special_filter :
  forall s, Py.re_sub_class (special u) [] s = filter (kept u) s.
Proof.
  intros s. unfold Py.re_sub_class, special.
  induction s as [|c s IH]; simpl.
  - reflexivity.
  - rewrite IH. fold (kept u c). destruct (kept u c); reflexivity.
Qed.

Lemma sanitize_filename_unfold :
  forall x,
    sanitize_filename u x =
    Py.lower u (Py.sub_runs hyphen_or_space [hyphen] false
                            (filter (kept u) x)).
Proof.
  intros x. unfold sanitize_filename, Py.re_sub_class_plus.
  rewrite re_sub_special_filter. reflexivity.
Qed.

(** Whatever text stands in [collapsed] to the kept characters, its
    lowercase form is the sanitizer's result. *)
Lemma sanitize_filename_determined :
  forall x t,
    collapsed (filter (kept u) x) t -> sanitize_filename u x = Py.lower u t.
Proof.
  intros x t H. rewrite sanitize_filename_unfold. f_equal.
  apply (collapsed_functional (filter (kept u) x)); [|exact H].
  apply sub_runs_collapsed.
Qed.

(** C6, amended: the sanitizer keeps exactly the word characters
    (alphanumeric or underscore), whitespace and hyphens, in order; turns
    every maximal run of whitespace and hyphens of what it kept into one
    hyphen; and lowercases the result.  On the title AI & ML: 2025! it gives
    ai-ml-2025. *)
Theorem sanitize_filename_steps :
  (forall x,
      exists collapsed_text,
        collapsed (filter (kept u) x) collapsed_text
        /\ sanitize_filename u x = Py.lower u collapsed_text)
  /\ (forall c, kept u c = isalnum u c || (c =? underscore)%N
                         || Py.isspace c || (c =? hyphen)%N)
  /\ sanitize_filename u (lit "AI & ML: 2025!") = lit "ai-ml-2025".
Proof.
  split; [|split].
  - intros x.
    exists (Py.sub_runs hyphen_or_space [hyphen] false (filter (kept u) x)).
    split; [apply sub_runs_collapsed|apply sanitize_filename_unfold].
  - intros c. unfold kept, isalnum, Py.isword.
    destruct (Py.is_ascii c) eqn:E; [reflexivity|].
    assert ((c =? underscore)%N = false) as ->.
    { apply N.eqb_neq. intros ->. discriminate E. }
    rewrite orb_false_r. reflexivity.
  - reflexivity.
Qed.

(** *** Idempotence on ASCII titles *)

Lemma kept_ascii_not_run :
  forall c,
    Py.is_ascii c = true ->
    kept u c = true ->
    hyphen_or_space c = false ->
    ascii_word c = true.
Proof.
  intros c Ha Hk Hr. unfold kept, Py.isword in Hk. rewrite Ha in Hk.
  unfold hyphen_or_space in Hr. apply orb_false_elim in Hr.
  destruct Hr as [Hh Hs]. rewrite Hh, Hs, !orb_false_r in Hk.
  unfold ascii_word. rewrite Ha, Hk. reflexivity.
Qed.

Lemma ascii_word_kept :
  forall c,
    ascii_word c = true -> kept u c = true /\ hyphen_or_space c = false.
Proof.
  intros c Hw. destruct (ascii_word_facts c Hw) as [Hs [Hh _]].
  unfold kept, hyphen_or_space, Py.isword. rewrite Hs, Hh.
  unfold ascii_word in Hw. split_andb.
  split; [|reflexivity].
  repeat match goal with h : _ = true |- _ => rewrite h end.
  reflexivity.
Qed.

(** After the two substitutions an ASCII title is tidy. *)
Lemma sub_runs_tidy :
  forall s in_run,
    Forall (fun c => Py.is_ascii c = true) s ->
    tidy ascii_word in_run
         (Py.sub_runs hyphen_or_space [hyphen] in_run (filter (kept u) s))
    = true.
Proof.
  induction s as [|c s IH]; intros in_run Hall.
  - reflexivity.
  - inversion Hall as [|? ? Ha Hs]; subst.
    cbn [filter]. destruct (kept u c) eqn:Hk; [|apply IH; exact Hs].
    cbn [Py.sub_runs]. destruct (hyphen_or_space c) eqn:Hr.
    + destruct in_run; cbn [app].
      * apply IH; exact Hs.
      * cbn [tidy]. rewrite N.eqb_refl. simpl. apply IH; exact Hs.
    + pose proof (kept_ascii_not_run c Ha Hk Hr) as Hw.
      destruct (ascii_word_facts c Hw) as [_ [Hh _]].
      cbn [tidy]. rewrite Hh, Hw. simpl. apply IH; exact Hs.
Qed.

(** Lowercasing keeps a tidy text tidy and makes it lowercase. *)
Lemma tidy_lower :
  forall s before after_hyphen,
    tidy ascii_word after_hyphen s = true ->
    tidy ascii_lower_word after_hyphen (Py.lower_from u before s) = true.
Proof.
  induction s as [|c s IH]; intros before b H.
  - reflexivity.
  - cbn [tidy] in H. cbn [Py.lower_from].
    destruct (N.eqb_spec c hyphen) as [E|E].
    + subst c. apply andb_prop in H. destruct H as [Hb H].
      rewrite hyphen_is_ascii. cbn [app]. cbn [tidy].
      change (Py.ascii_lower hyphen =? hyphen)%N with true. cbv iota.
      rewrite Hb. simpl. apply IH. exact H.
    + apply andb_prop in H. destruct H as [Hw H].
      destruct (ascii_word_facts c Hw) as [_ [_ [Hl Hh]]].
      rewrite (ascii_word_is_ascii c Hw).
      cbn [app]. cbn [tidy]. rewrite Hh, Hl. simpl. apply IH. exact H.
Qed.

(** A tidy lowercase text is a fixed point of each of the three steps. *)
Lemma tidy_fixed :
  forall s,
    (forall after_hyphen,
        tidy ascii_lower_word after_hyphen s = true ->
        filter (kept u) s = s
        /\ Py.sub_runs hyphen_or_space [hyphen] after_hyphen s = s)
    /\ (forall before after_hyphen,
           tidy ascii_lower_word after_hyphen s = true ->
           Py.lower_from u before s = s).
Proof.
  induction s as [|c s [IH1 IH2]].
  - split; intros; [split|]; reflexivity.
  - split.
    + intros b H. cbn [tidy] in H.
      destruct (N.eqb_spec c hyphen) as [E|E].
      * subst c. apply andb_prop in H. destruct H as [Hb H].
        apply negb_true_iff in Hb. subst b.
        destruct (IH1 true H) as [F R].
        cbn [filter Py.sub_runs].
        change (kept u hyphen) with true.
        change (hyphen_or_space hyphen) with true. cbv iota.
        rewrite F, R. split; reflexivity.
      * apply andb_prop in H. destruct H as [Hlw H].
        unfold ascii_lower_word in Hlw. apply andb_prop in Hlw.
        destruct Hlw as [Hw _].
        destruct (ascii_word_kept c Hw) as [Hk Hr].
        destruct (IH1 false H) as [F R].
        cbn [filter Py.sub_runs]. rewrite Hk, Hr, F, R. split; reflexivity.
    + intros before b H. cbn [tidy] in H. cbn [Py.lower_from].
      destruct (N.eqb_spec c hyphen) as [E|E].
      * subst c. apply andb_prop in H. destruct H as [_ H].
        rewrite hyphen_is_ascii. cbn [app].
        rewrite (IH2 _ true H). reflexivity.
      * apply andb_prop in H. destruct H as [Hlw H].
        unfold ascii_lower_word in Hlw. apply andb_prop in Hlw.
        destruct Hlw as [Hw Hfix]. apply N.eqb_eq in Hfix.
        rewrite (ascii_word_is_ascii c Hw).
        cbn [app]. rewrite Hfix, (IH2 _ false H). reflexivity.
Qed.

(** On every title made of ASCII characters the sanitizer is idempotent,
    whatever the Unicode tables say about the rest. *)
Lemma sanitize_filename_idempotent_ascii :
  forall x,
    Forall (fun c => Py.is_ascii c = true) x ->
    sanitize_filename u (sanitize_filename u x) = sanitize_filename u x.
Proof.
  intros x Hx.
  assert (tidy ascii_lower_word false (sanitize_filename u x) = true) as Ht.
  { rewrite sanitize_filename_unfold.
    apply tidy_lower. apply sub_runs_tidy. exact Hx. }
  destruct (tidy_fixed (sanitize_filename u x)) as [H1 H2].
  destruct (H1 false Ht) as [F R].
  rewrite (sanitize_filename_unfold (sanitize_filename u x)).
  rewrite F, R. apply (H2 [] false Ht).
Qed.

(** *** Idempotence where lowercasing settles *)

(** A kept character outside the runs is a word character. *)
Lemma kept_not_run_word :
  forall c,
    kept u c = true ->
    hyphen_or_space c = false ->
    Py.isword u c = true /\ Py.isspace c = false /\ (c =? hyphen)%N = false.
Proof.
  intros c Hk Hr. unfold kept in Hk. unfold hyphen_or_space in Hr.
  apply orb_false_elim in Hr. destruct Hr as [Hh Hs].
  rewrite Hh, Hs, !orb_false_r in Hk. repeat split; assumption.
Qed.

(** The lowercase form of an ASCII word character is settled. *)
Lemma ascii_word_settles :
  forall c, ascii_word c = true -> settled u (Py.ascii_lower c).
Proof.
  intros c Hw. destruct (ascii_word_facts c Hw) as [_ [_ [Hl _]]].
  unfold ascii_lower_word in Hl. apply andb_prop in Hl.
  destruct Hl as [Hlw Hfix]. apply N.eqb_eq in Hfix.
  destruct (ascii_word_kept _ Hlw) as [Hk Hr].
  destruct (kept_not_run_word _ Hk Hr) as [Hword _].
  split; [exact Hword|]. split; [exact Hr|].
  intros before after. unfold lower_at.
  rewrite (ascii_word_is_ascii _ Hlw), Hfix. reflexivity.
Qed.

(** After the two substitutions, what stands between the single hyphens
    lowers to settled code points. *)
Lemma sub_runs_neat :
  forall s in_run,
    Forall (lowers_well u) s ->
    neat (lowers_to_settled u) in_run
         (Py.sub_runs hyphen_or_space [hyphen] in_run (filter (kept u) s)).
Proof.
  induction s as [|c s IH]; intros in_run Hall.
  - exact I.
  - inversion Hall as [|? ? Hc Hs]; subst.
    cbn [filter]. destruct (kept u c) eqn:Hk; [|apply IH; exact Hs].
    cbn [Py.sub_runs]. destruct (hyphen_or_space c) eqn:Hr.
    + destruct in_run; cbn [app].
      * apply IH; exact Hs.
      * cbn [neat]. rewrite N.eqb_refl.
        split; [reflexivity|apply IH; exact Hs].
    + destruct (kept_not_run_word c Hk Hr) as [Hword [Hspace Hh]].
      cbn [neat]. rewrite Hh. split; [|apply IH; exact Hs].
      destruct (Py.is_ascii c) eqn:Ha.
      * pose proof (kept_ascii_not_run c Ha Hk Hr) as Hw.
        intros before after. unfold lower_at. rewrite Ha.
        split; [discriminate|].
        constructor; [apply ascii_word_settles; exact Hw|constructor].
      * apply Hc; assumption.
Qed.

Lemma settled_not_hyphen :
  forall d, settled u d -> (d =? hyphen)%N = false.
Proof.
  intros d [_ [Hr _]]. unfold hyphen_or_space in Hr.
  apply orb_false_elim in Hr. destruct Hr as [Hh _]. exact Hh.
Qed.

Lemma neat_app_settled :
  forall l rest,
    Forall (settled u) l ->
    neat (settled u) false rest ->
    neat (settled u) false (l ++ rest)
    /\ (l <> [] -> forall b, neat (settled u) b (l ++ rest)).
Proof.
  induction l as [|d l IH]; intros rest Hl Hrest.
  - split; [exact Hrest|]. intros H. contradiction H. reflexivity.
  - inversion Hl as [|? ? Hd Hl']; subst.
    destruct (IH rest Hl' Hrest) as [IH1 _].
    assert (forall b, neat (settled u) b ((d :: l) ++ rest)) as H.
    { intros b. cbn [app neat]. rewrite (settled_not_hyphen d Hd).
      split; assumption. }
    split; [apply H|]. intros _. exact H.
Qed.

(** Lowercasing turns such a text into single hyphens and settled code
    points. *)
Lemma lower_neat :
  forall s before after_hyphen,
    neat (lowers_to_settled u) after_hyphen s ->
    neat (settled u) after_hyphen (Py.lower_from u before s).
Proof.
  induction s as [|c s IH]; intros before b H.
  - exact I.
  - cbn [neat] in H. cbn [Py.lower_from].
    destruct (N.eqb_spec c hyphen) as [E|E].
    + subst c. destruct H as [Hb H].
      rewrite hyphen_is_ascii. cbn [app neat].
      change (Py.ascii_lower hyphen =? hyphen)%N with true. cbv iota.
      split; [exact Hb|apply IH; exact H].
    + destruct H as [Hc H]. destruct (Hc before s) as [Hne Hl].
      unfold lower_at in Hne, Hl.
      apply neat_app_settled; [exact Hl|apply IH; exact H|exact Hne].
Qed.

(** A text of single hyphens and settled code points is a fixed point of
    each of the three steps. *)
Lemma neat_fixed :
  forall s,
    (forall after_hyphen,
        neat (settled u) after_hyphen s ->
        filter (kept u) s = s
        /\ Py.sub_runs hyphen_or_space [hyphen] after_hyphen s = s)
    /\ (forall before after_hyphen,
           neat (settled u) after_hyphen s ->
           Py.lower_from u before s = s).
Proof.
  induction s as [|c s [IH1 IH2]].
  - split; intros; [split|]; reflexivity.
  - split.
    + intros b H. cbn [neat] in H.
      destruct (N.eqb_spec c hyphen) as [E|E].
      * subst c. destruct H as [Hb H]. subst b.
        destruct (IH1 true H) as [F R].
        cbn [filter Py.sub_runs].
        change (kept u hyphen) with true.
        change (hyphen_or_space hyphen) with true. cbv iota.
        rewrite F, R. split; reflexivity.
      * destruct H as [[Hword [Hr _]] H].
        destruct (IH1 false H) as [F R].
        cbn [filter Py.sub_runs]. unfold kept. rewrite Hword, Hr.
        cbn [orb]. fold (kept u). rewrite F, R. split; reflexivity.
    + intros before b H. cbn [neat] in H. cbn [Py.lower_from].
      destruct (N.eqb_spec c hyphen) as [E|E].
      * subst c. destruct H as [_ H].
        rewrite hyphen_is_ascii. cbn [app].
        rewrite (IH2 _ true H). reflexivity.
      * destruct H as [[_ [_ Hfix]] H].
        change (lower_at u before c s ++ Py.lower_from u (before ++ [c]) s
                = c :: s).
        rewrite Hfix. cbn [app]. rewrite (IH2 _ false H). reflexivity.
Qed.

(** A text of single hyphens and settled code points is what the sanitizer
    returns for it. *)
Lemma neat_is_sanitized :
  forall s, neat (settled u) false s -> sanitize_filename u s = s.
Proof.
  intros s Hn. destruct (neat_fixed s) as [H1 H2].
  destruct (H1 false Hn) as [F R].
  rewrite sanitize_filename_unfold, F, R. apply (H2 [] false Hn).
Qed.

(** C9, amended: the sanitizer is idempotent on every title whose
    non-ASCII word characters each have a lowercase form made of one or more
    word characters that lowercasing leaves unchanged.  Nothing is asked of
    the ASCII characters, of whitespace, or of the characters the sanitizer
    removes. *)
Theorem sanitize_filename_idempotent_when_lowercase_settles :
  forall x,
    Forall (lowers_well u) x ->
    sanitize_filename u (sanitize_filename u x) = sanitize_filename u x.
Proof.
  intros x Hx.
  assert (neat (lowers_to_settled u) false
               (Py.sub_runs hyphen_or_space [hyphen] false
                            (filter (kept u) x))) as Hcollapsed
      by (apply sub_runs_neat; exact Hx).
  assert (neat (settled u) false (sanitize_filename u x)) as Hn.
  { rewrite sanitize_filename_unfold. apply lower_neat. exact Hcollapsed. }
  apply neat_is_sanitized. exact Hn.
Qed.

(** Every ASCII title meets the condition, whatever the tables. *)
Lemma ascii_title_lowers_well :
  forall x,
    Forall (fun c => Py.is_ascii c = true) x -> Forall (lowers_well u) x.
Proof.
  intros x H. apply Forall_forall. intros c Hin Ha.
  rewrite Forall_forall in H. rewrite (H c Hin) in Ha. discriminate Ha.
Qed.

End Sanitizer.

(** In the tables [latin_db] the two accented letters of the title lower to
    themselves and are settled. *)
Lemma sanitize_filename_idempotent_when_lowercase_settles_witness :
  Forall (lowers_well latin_db) cafe_creme
  /\ sanitize_filename latin_db cafe_creme
     = [99; 97; 102; 233; 45; 99; 114; 232; 109; 101]%N
  /\ sanitize_filename latin_db (sanitize_filename latin_db cafe_creme)
     = sanitize_filename latin_db cafe_creme.
Proof.
  assert (forall c, Py.is_ascii c = true -> lowers_well latin_db c) as Hascii.
  { intros c Ha Hn. rewrite Ha in Hn. discriminate Hn. }
  assert (forall c, c = 233%N \/ c = 232%N -> lowers_well latin_db c)
    as Haccent.
  { intros c [->| ->] _ _ _ before after;
      (split; [discriminate|]);
      (constructor; [|constructor]);
      (split; [reflexivity|split; [reflexivity|intros; reflexivity]]). }
  assert (Forall (lowers_well latin_db) cafe_creme) as H.
  { unfold cafe_creme.
    repeat (apply Forall_cons;
            [first [apply Hascii; reflexivity|apply Haccent; auto]|]).
    apply Forall_nil. }
  split; [exact H|]. split; [reflexivity|].
  apply (sanitize_filename_idempotent_when_lowercase_settles
           latin_db cafe_creme H).
Defined.

(** In the tables [latin_db] the alphanumeric code points are below U+0100,
    but for the dotted capital I. *)
Lemma latin_isalnum_range :
  forall c, latin_isalnum c = true -> (c < 256)%N \/ c = 304%N.
Proof.
  intros c H. unfold latin_isalnum, Py.in_range in H.
  repeat match goal with
         | h : (_ || _)%bool = true |- _ =>
             apply orb_prop in h; destruct h as [h|h]
         end;
    repeat match goal with
           | h : (_ && _)%bool = true |- _ =>
               apply andb_prop in h; destruct h
           | h : (_ =? _)%N = true |- _ => apply N.eqb_eq in h
           | h : (_ <=? _)%N = true |- _ => apply N.leb_le in h
           end;
    lia.
Qed.

Lemma latin_settled_sound :
  forall d, latin_settled d = true -> settled latin_db d.
Proof.
  intros d H. unfold latin_settled in H. split_andb.
  split; [assumption|]. split; [apply negb_true_iff; assumption|].
  intros before after.
  change (lower_at latin_db before d after) with (lower_at latin_db [] d []).
  destruct (lower_at latin_db [] d []) as [|e [|e' l]];
    try discriminate.
  match goal with h : (e =? d)%N = true |- _ => apply N.eqb_eq in h; subst e end.
  reflexivity.
Qed.

(** In the tables [latin_db] every code point but the dotted capital I
    (U+0130) meets the condition of the idempotence: the sanitizer is
    idempotent there on every title without that letter. *)
Lemma latin_db_lowers_well :
  forall c, c <> 304%N -> lowers_well latin_db c.
Proof.
  intros c Hc Ha Hw Hs.
  assert (latin_isalnum c = true) as Hal.
  { unfold Py.isword in Hw. rewrite Ha in Hw. exact Hw. }
  destruct (latin_isalnum_range c Hal) as [Hlt|E]; [|contradiction].
  assert (forallb latin_lowers_well latin_table = true) as Htable
      by (vm_compute; reflexivity).
  rewrite forallb_forall in Htable.
  assert (In c latin_table) as Hin.
  { unfold latin_table. apply in_map_iff. exists (N.to_nat c).
    split; [apply N2Nat.id|apply in_seq; lia]. }
  pose proof (Htable c Hin) as Hok. unfold latin_lowers_well in Hok.
  rewrite Ha, Hw in Hok. cbn [negb andb implb] in Hok.
  apply andb_prop in Hok. destruct Hok as [Hne Hall].
  intros before after.
  change (lower_at latin_db before c after) with (lower_at latin_db [] c []).
  split.
  - destruct (lower_at latin_db [] c []); [discriminate Hne|discriminate].
  - apply Forall_forall. intros d Hd. apply latin_settled_sound.
    rewrite forallb_forall in Hall. apply Hall. exact Hd.
Qed.

Lemma latin_db_idempotent_without_dotted_capital_i :
  forall x,
    ~ In 304%N x ->
    sanitize_filename latin_db (sanitize_filename latin_db x)
    = sanitize_filename latin_db x.
Proof.
  intros x H. apply neat_is_sanitized.
  rewrite sanitize_filename_unfold. apply lower_neat. apply sub_runs_neat.
  apply Forall_forall. intros c Hin. apply latin_db_lowers_well.
  intros E. subst c. contradiction.
Qed.

(** C6, as stated, fails: the underscore is neither alphanumeric nor
    whitespace nor a hyphen, and the sanitizer keeps it. *)
Lemma underscore_survives :
  sanitize_filename latin_db (lit "a_b") = lit "a_b"
  /\ In underscore (sanitize_filename latin_db (lit "a_b"))
  /\ spec_kept latin_db underscore = false.
Proof.
  split; [reflexivity|]. split; [vm_compute; tauto|reflexivity].
Qed.

(** C9, as stated, fails: the capital I with a dot above (U+0130) is a
    letter whose lowercase form is i followed by the combining dot above
    (U+0307); the first pass keeps the letter and lowercases it, the second
    removes the combining dot, which is no word character. *)
Lemma dotted_capital_i_not_stable :
  sanitize_filename latin_db [304%N] = [105%N; 775%N]
  /\ sanitize_filename latin_db (sanitize_filename latin_db [304%N])
     = [105%N]
  /\ sanitize_filename latin_db (sanitize_filename latin_db [304%N])
     <> sanitize_filename latin_db [304%N].
Proof.
  split; [reflexivity|]. split; [reflexivity|].
  vm_compute. discriminate.
Qed.

(** ** The quoted title of the header *)

Lemma quoted_body_plain :
  forall s,
    ~ In dquote s -> ~ In backslash s -> quoted_body (s ++ [dquote]) = true.
Proof.
  induction s as [|c s IH]; intros Hq Hb.
  - reflexivity.
  - cbn [app quoted_body].
    destruct (N.eqb_spec c dquote) as [E|_].
    { exfalso. apply Hq. left. exact E. }
    destruct (N.eqb_spec c backslash) as [E|_].
    { exfalso. apply Hb. left. exact E. }
    apply IH; intros H; [apply Hq|apply Hb]; right; exact H.
Qed.

(** Wrapping in quotes is enough for a title with no double quote and no
    backslash. *)
Lemma plain_title_well_quoted :
  forall t,
    ~ In dquote t -> ~ In backslash t -> well_quoted (quoted t) = true.
Proof.
  intros t Hq Hb. unfold well_quoted, quoted.
  rewrite N.eqb_refl. apply quoted_body_plain; assumption.
Qed.

(** C8 on the code: a deck whose first slide is titled Say, then hi between
    double quotes, gives the presentation that title unchanged; the header
    carries the line title: followed by the title between double quotes with
    the inner quotes as they are; and that value is not a well-formed quoted
    value, its quotation ending at the second double quote. *)
Theorem title_quotes_not_escaped :
  title (fst (parse_powerpoint_slide [] quoting_cover 0)) = quoting_title
  /\ In (lit "title: " ++ quoted quoting_title)
        (Py.split_char nl (generate_frontmatter quoting_title (lit "Ken")))
  /\ well_quoted (quoted quoting_title) = false.
Proof.
  split; [reflexivity|]. split; [|reflexivity].
  vm_compute. tauto.
Qed.


(** * Further properties of the deck extractor *)

(** ** Decimal numbers and file names *)

Lemma uint_digits_are_digits :
  forall d, forallb is_digit (Py.uint_digits d) = true.
Proof. induction d; simpl; auto. Qed.

Lemma uint_digits_inj :
  forall d1 d2, Py.uint_digits d1 = Py.uint_digits d2 -> d1 = d2.
Proof.
  induction d1; destruct d2; simpl; intros H;
    try reflexivity; try discriminate H;
    injection H as H; f_equal; auto.
Qed.

Lemma str_of_nat_inj :
  forall a b, Py.str_of_nat a = Py.str_of_nat b -> a = b.
Proof.
  intros a b H. apply Unsigned.to_uint_inj, uint_digits_inj, H.
Qed.

(** A text splits in one way only into leading digits and a rest that
    starts with another character. *)
Lemma digits_split_unique :
  forall d1 d2 x y r1 r2,
    forallb is_digit d1 = true ->
    forallb is_digit d2 = true ->
    is_digit x = false -> is_digit y = false ->
    d1 ++ x :: r1 = d2 ++ y :: r2 ->
    d1 = d2 /\ r1 = r2.
Proof.
  induction d1 as [|c d1 IH]; intros d2 x y r1 r2 H1 H2 Hx Hy H.
  - destruct d2 as [|c2 d2]; simpl in *.
    + injection H as _ H. split; [reflexivity|exact H].
    + injection H as E _. subst c2. split_andb. congruence.
  - destruct d2 as [|c2 d2]; simpl in *.
    + injection H as E _. subst c. split_andb. congruence.
    + injection H as E H. subst c2. split_andb.
      destruct (IH d2 x y r1 r2) as [-> ->]; auto.
Qed.

Lemma image_filename_inj :
  forall a b a' b',
    image_filename a b = image_filename a' b' -> a = a' /\ b = b'.
Proof.
  intros a b a' b' H. unfold image_filename in H.
  apply app_inv_head in H.
  change (lit "_image_") with (95%N :: lit "image_") in H.
  apply digits_split_unique in H;
    try apply uint_digits_are_digits; try reflexivity.
  destruct H as [Ha H]. apply app_inv_head in H.
  change (lit ".png") with (46%N :: lit "png") in H.
  apply digits_split_unique in H;
    try apply uint_digits_are_digits; try reflexivity.
  destruct H as [Hb _].
  apply str_of_nat_inj in Ha. apply str_of_nat_inj in Hb. lia.
Qed.

(** ** Image references *)

Lemma number_assets_names :
  forall n blobs k,
    map filename (number_assets n k blobs) =
    map (image_filename n) (seq k (List.length blobs)).
Proof.
  intros n blobs. induction blobs as [|d blobs IH]; intros k; simpl.
  - reflexivity.
  - rewrite IH. reflexivity.
Qed.

Lemma parse_images_numbered :
  forall temp slide n,
    images (fst (parse_powerpoint_slide temp slide n)) =
    map (image_filename n) (seq 0 (readable_count slide)).
Proof.
  intros temp slide n. rewrite parse_powerpoint_slide_closed_form.
  apply number_assets_names.
Qed.

Lemma parse_staged_names :
  forall temp slide n,
    map filename (snd (parse_powerpoint_slide temp slide n)) =
    map filename temp ++ images (fst (parse_powerpoint_slide temp slide n)).
Proof.
  intros temp slide n. rewrite parse_powerpoint_slide_closed_form.
  cbv zeta. cbn [fst snd mkSlide images]. apply map_app.
Qed.

Lemma staged_names_from :
  forall deck temp n,
    map filename (snd (extract_slides temp n deck)) =
    map filename temp ++ List.concat (map images (slides_from n deck)).
Proof.
  unfold slides_from.
  induction deck as [|slide deck IH]; intros temp n; simpl.
  - rewrite app_nil_r. reflexivity.
  - pose proof (parse_staged_names temp slide n) as Hs.
    assert (images (fst (parse_powerpoint_slide temp slide n)) =
            images (fst (parse_powerpoint_slide [] slide n))) as Hi
        by (rewrite !parse_images_numbered; reflexivity).
    destruct (parse_powerpoint_slide temp slide n) as [sc temp1].
    specialize (IH temp1 (S n)).
    destruct (extract_slides temp1 (S n) deck) as [scs temp2].
    simpl in *. rewrite IH, Hs, Hi, <- app_assoc. reflexivity.
Qed.

(** The references of the slides from ordinal [n] on name a slide of
    ordinal [n] or later. *)
Lemma references_from_ordinal :
  forall deck n name,
    In name (List.concat (map images (slides_from n deck))) ->
    exists i k, n <= i /\ name = image_filename i k.
Proof.
  unfold slides_from.
  induction deck as [|slide deck IH]; intros n name H; simpl in H.
  - contradiction.
  - apply in_app_or in H. destruct H as [H|H].
    + rewrite parse_images_numbered in H.
      apply in_map_iff in H. destruct H as [k [E _]].
      exists n, k. split; [lia|symmetry; exact E].
    + destruct (IH (S n) name H) as [i [k [Hi E]]].
      exists i, k. split; [lia|exact E].
Qed.

Lemma references_distinct :
  forall deck n, NoDup (List.concat (map images (slides_from n deck))).
Proof.
  induction deck as [|slide deck IH]; intros n.
  - constructor.
  - unfold slides_from. cbn [enumerate_from map List.concat fst snd].
    fold (slides_from (S n) deck).
    apply NoDup_app.
    + rewrite parse_images_numbered.
      apply NoDup_map_NoDup_ForallPairs; [|apply seq_NoDup].
      intros x y _ _ E. apply image_filename_inj in E. tauto.
    + apply IH.
    + intros name H1 H2. rewrite parse_images_numbered in H1.
      apply in_map_iff in H1. destruct H1 as [k [E _]].
      destruct (references_from_ordinal deck (S n) name H2)
        as [i [k' [Hi E']]].
      rewrite E' in E. apply image_filename_inj in E. lia.
Qed.


(** X1: the image references of a slide are numbered 1, 2, ... without a
    gap, one for each picture whose blob could be read, whatever pictures
    failed in between; the count never exceeds the number of shapes. *)
Theorem slide_images_numbered :
  forall temp slide n,
    images (fst (parse_powerpoint_slide temp slide n)) =
    map (image_filename n) (seq 0 (readable_count slide))
    /\ readable_count slide <= List.length (sl_shapes slide).
Proof.
  intros temp slide n. split; [apply parse_images_numbered|].
  unfold readable_count.
  induction (sl_shapes slide) as [|shape shapes IH]; simpl.
  - lia.
  - rewrite length_app. unfold readable_blob at 1.
    destruct (sh_image shape) as [[data|]|]; simpl; lia.
Qed.

(** X2: when a deck is extracted, the image files staged by it are exactly
    the image references of the extracted slides, in slide order, after
    whatever was staged before: every reference has its file and no file
    lacks a reference. *)
Theorem staged_images_are_the_references :
  forall deck temp n,
    map filename (snd (extract_slides temp n deck)) =
    map filename temp
      ++ List.concat (map images (fst (extract_slides temp n deck))).
Proof.
  intros deck temp n. rewrite staged_names_from, extract_slides_map.
  reflexivity.
Qed.

(** X3: in one conversion no two staged images share a file name, so no
    image file overwrites another. *)
Theorem staged_filenames_distinct :
  forall deck, NoDup (map filename (snd (extract_slides [] 0 deck))).
Proof.
  intros deck. rewrite staged_names_from. apply references_distinct.
Qed.

(** ** Titles and content entries of deck slides *)

Lemma split_at_pieces :
  forall sep s, Forall (Forall (fun c => sep c = false)) (Py.split_at sep s).
Proof.
  intros sep s. induction s as [|c s IH]; simpl.
  - repeat constructor.
  - destruct (sep c) eqn:E.
    + constructor; [constructor|exact IH].
    + destruct (Py.split_at sep s) as [|w ws].
      * repeat constructor. exact E.
      * inversion IH; subst. constructor; [constructor; assumption|assumption].
Qed.

Lemma split_words : forall s, Forall word (Py.split s).
Proof.
  intros s. unfold Py.split. apply Forall_forall. intros w H.
  apply filter_In in H. destruct H as [H Ht].
  split.
  - destruct w; [discriminate Ht|discriminate].
  - pose proof (split_at_pieces Py.isspace s) as Hp.
    rewrite Forall_forall in Hp. apply Hp. exact H.
Qed.

Lemma escape_join :
  forall ws,
    escape (Py.join (lit " ") ws) = Py.join (lit " ") (map escape ws).
Proof.
  induction ws as [|w ws IH]; [reflexivity|].
  destruct ws as [|w' ws]; [reflexivity|].
  change (Py.join (lit " ") (w :: w' :: ws))
    with (w ++ lit " " ++ Py.join (lit " ") (w' :: ws)).
  rewrite !escape_app, IH. reflexivity.
Qed.

Lemma replace_word :
  forall old new w,
    word new -> word w -> word (Py.replace old new w).
Proof.
  intros old new w [Hn Hs] [Hw Hws]. split.
  - destruct w as [|c w]; [contradiction Hw; reflexivity|].
    unfold Py.replace. simpl. destruct (c =? old)%N.
    + destruct new; [contradiction Hn; reflexivity|discriminate].
    + discriminate.
  - apply Forall_forall. intros c H. apply in_replace in H.
    rewrite Forall_forall in Hs, Hws. destruct H as [H|[H _]]; auto.
Qed.

Lemma escape_word : forall w, word w -> word (escape w).
Proof.
  intros w H. unfold escape.
  apply replace_word; [|apply replace_word; [|exact H]];
    (split; [discriminate|repeat constructor]).
Qed.

Lemma str_of_nat_word : forall n, word (Py.str_of_nat n).
Proof.
  intros n. split.
  - unfold Py.str_of_nat. intros H.
    assert (Nat.to_uint n = Decimal.Nil) as E
        by (apply uint_digits_inj; exact H).
    pose proof (Unsigned.of_to n) as Hn. rewrite E in Hn. simpl in Hn.
    subst n. discriminate E.
  - apply Forall_forall. intros c H. apply uint_digits_range in H.
    assert (Py.is_ascii c = true) as Ha
        by (unfold Py.is_ascii; apply N.ltb_lt; lia).
    assert (is_digit c = true) as Hd.
    { unfold is_digit, Py.in_range.
      apply andb_true_intro. split; apply N.leb_le; lia. }
    pose proof (ascii_cases
                  (fun c => implb (is_digit c) (negb (Py.isspace c)))
                  eq_refl c Ha) as Hc.
    cbv beta in Hc. rewrite Hd in Hc. simpl in Hc.
    apply negb_true_iff in Hc. exact Hc.
Qed.

Lemma spaced_words_nonempty : forall t, spaced_words t -> t <> [].
Proof.
  intros t [ws [Hne [Hf E]]] Ht. subst t.
  destruct ws as [|w ws]; [contradiction Hne; reflexivity|].
  inversion Hf as [|? ? [Hw _] _]; subst.
  destruct w as [|c w]; [contradiction Hw; reflexivity|].
  destruct ws; discriminate Ht.
Qed.

Lemma deck_title_words :
  forall slide, deck_title slide = [] \/ spaced_words (deck_title slide).
Proof.
  intros slide. unfold deck_title.
  destruct (sl_title slide) as [[i t]|]; [|left; reflexivity].
  pose proof (split_words (Py.strip t)) as Hw.
  destruct (Py.split (Py.strip t)) as [|w ws] eqn:E.
  - left. reflexivity.
  - right. exists (map escape (w :: ws)). split; [discriminate|].
    split; [|apply escape_join].
    apply Forall_forall. intros x H. apply in_map_iff in H.
    destruct H as [y [<- H]]. apply escape_word.
    rewrite Forall_forall in Hw. apply Hw. exact H.
Qed.

Lemma slide_title_words :
  forall temp slide n,
    spaced_words (title (fst (parse_powerpoint_slide temp slide n))).
Proof.
  intros temp slide n.
  destruct (parse_powerpoint_slide_fields temp slide n) as [Ht _].
  rewrite Ht. destruct (deck_title_words slide) as [E|H].
  - rewrite E. simpl Py.truthy. cbv iota.
    exists [lit "Slide"; Py.str_of_nat (n + 1)].
    split; [discriminate|]. split; [|reflexivity].
    constructor; [split; [discriminate|repeat constructor]|].
    constructor; [apply str_of_nat_word|constructor].
  - pose proof (spaced_words_nonempty _ H) as Hne.
    destruct (deck_title slide); [contradiction Hne; reflexivity|exact H].
Qed.

Lemma in_join :
  forall sep ws c,
    In c (Py.join sep ws) -> In c sep \/ exists w, In w ws /\ In c w.
Proof.
  intros sep ws c. induction ws as [|w ws IH]; intros H.
  - contradiction.
  - destruct ws as [|w' ws].
    + right. exists w. split; [left; reflexivity|exact H].
    + change (Py.join sep (w :: w' :: ws))
        with (w ++ sep ++ Py.join sep (w' :: ws)) in H.
      apply in_app_or in H. destruct H as [H|H].
      * right. exists w. split; [left; reflexivity|exact H].
      * apply in_app_or in H. destruct H as [H|H]; [left; exact H|].
        destruct (IH H) as [H1|[x [Hx Hc]]]; [left; exact H1|].
        right. exists x. split; [right; exact Hx|exact Hc].
Qed.

Lemma spaced_words_one_line :
  forall t c, spaced_words t -> In c t -> Py.isspace c = true -> c = 32%N.
Proof.
  intros t c [ws [_ [Hf E]]] Hin Hs. subst t.
  apply in_join in Hin. destruct Hin as [H|[w [Hw Hc]]].
  - destruct H as [H|[]]. symmetry. exact H.
  - rewrite Forall_forall in Hf. destruct (Hf w Hw) as [_ Hns].
    rewrite Forall_forall in Hns. rewrite (Hns c Hc) in Hs. discriminate Hs.
Qed.

(** X4: the title of every slide extracted from a deck is a non-empty
    sequence of whitespace-free words separated by single spaces; the only
    whitespace in it is the space, so it holds no line break. *)
Theorem deck_titles_are_spaced_words :
  forall temp n deck,
    Forall (fun sc =>
              spaced_words (title sc)
              /\ (forall c, In c (title sc) -> Py.isspace c = true
                            -> c = 32%N)
              /\ ~ In nl (title sc))
           (fst (extract_slides temp n deck)).
Proof.
  intros temp n deck. rewrite extract_slides_map.
  apply Forall_forall. intros sc Hin.
  apply in_map_iff in Hin. destruct Hin as [[i slide] [E _]]. subst sc.
  pose proof (slide_title_words [] slide i) as Hw. simpl fst. simpl snd.
  split; [exact Hw|]. split.
  - intros c. apply spaced_words_one_line. exact Hw.
  - intros H. apply (spaced_words_one_line _ _ Hw) in H;
      [discriminate H|reflexivity].
Qed.

Lemma replace_nonempty :
  forall old new s, new <> [] -> s <> [] -> Py.replace old new s <> [].
Proof.
  intros old new s Hn Hs. destruct s as [|c s]; [contradiction Hs; reflexivity|].
  unfold Py.replace. simpl. destruct (c =? old)%N.
  - destruct new; [contradiction Hn; reflexivity|discriminate].
  - discriminate.
Qed.

Lemma escape_nonempty : forall s, s <> [] -> escape s <> [].
Proof.
  intros s H. unfold escape.
  apply replace_nonempty; [discriminate|].
  apply replace_nonempty; [discriminate|exact H].
Qed.

Lemma truthy_nonempty :
  forall (A : Type) (l : list A), Py.truthy l = true -> l <> [].
Proof. intros A [|a l] H; [discriminate H|discriminate]. Qed.

Lemma paragraph_entries_deck :
  forall paragraphs, Forall deck_entry (paragraph_entries paragraphs).
Proof.
  intros ps. unfold paragraph_entries.
  induction ps as [|p ps IH]; simpl; [constructor|].
  apply Forall_app. split; [|exact IH].
  destruct (Py.truthy (Py.strip (p_text p))) eqn:E; [|constructor].
  constructor; [|constructor].
  eexists. eexists. split; [reflexivity|].
  apply escape_nonempty, truthy_nonempty, E.
Qed.

Lemma flat_text_entries_deck :
  forall text, text <> [] -> Forall deck_entry (flat_text_entries text).
Proof.
  intros text Hne. unfold flat_text_entries.
  destruct (Py.contains nl text).
  - apply Forall_forall. intros it H.
    apply in_map_iff in H. destruct H as [line [<- H]].
    apply in_map_iff in H. destruct H as [raw [<- H]].
    apply filter_In in H. destruct H as [_ H].
    eexists. eexists. split; [reflexivity|].
    apply escape_nonempty, truthy_nonempty, H.
  - constructor; [|constructor].
    eexists. eexists. split; [reflexivity|].
    apply escape_nonempty, Hne.
Qed.

Lemma shape_entries_deck :
  forall slide shape, Forall deck_entry (shape_entries slide shape).
Proof.
  intros slide shape. unfold shape_entries, shape_step.
  destruct (sh_image shape) as [[data|]|]; simpl; try constructor.
  destruct (sh_text_frame shape) as [paragraphs|].
  - destruct (is_title_shape slide shape); simpl;
      [constructor|apply paragraph_entries_deck].
  - destruct (sh_text shape) as [t|]; simpl; [|constructor].
    destruct (Py.truthy (Py.strip t)) eqn:E; simpl; [|constructor].
    destruct (is_title_shape slide shape); simpl; [constructor|].
    apply flat_text_entries_deck, truthy_nonempty, E.
Qed.

(** X5: every content entry of a slide extracted from a deck is a pair
    (level, text) with a non-empty text: blank paragraphs and blank lines
    leave no entry, and the deck extractor never stores a bare line. *)
Theorem deck_content_entries_nonempty :
  forall temp n deck,
    Forall (fun sc => Forall deck_entry (content sc))
           (fst (extract_slides temp n deck)).
Proof.
  intros temp n deck. rewrite extract_slides_map.
  apply Forall_forall. intros sc Hin.
  apply in_map_iff in Hin. destruct Hin as [[i slide] [E _]]. subst sc.
  rewrite parse_powerpoint_slide_closed_form. cbn [fst snd mkSlide content].
  apply Forall_forall. intros it H. apply in_flat_map in H.
  destruct H as [shape [_ H]].
  pose proof (shape_entries_deck slide shape) as Hf.
  rewrite Forall_forall in Hf. apply Hf, H.
Qed.

Lemma lstrip_blank :
  forall t, forallb Py.isspace t = true -> Py.lstrip t = [].
Proof.
  induction t as [|c t IH]; simpl; intros H; [reflexivity|].
  apply andb_prop in H. destruct H as [-> H]. apply IH, H.
Qed.

Lemma untitled_deck_title :
  forall slide, untitled slide -> deck_title slide = [].
Proof.
  intros slide H. unfold untitled in H. unfold deck_title.
  destruct (sl_title slide) as [[i t]|]; [|reflexivity].
  unfold Py.strip. rewrite (lstrip_blank t H). reflexivity.
Qed.

(** X6: a slide with no title placeholder, or with a blank one, is titled
    Slide k, where k is its position in the deck counted from one. *)
Theorem untitled_slide_gets_its_position :
  forall deck i slide,
    nth_error deck i = Some slide ->
    untitled slide ->
    exists sc,
      nth_error (fst (extract_slides [] 0 deck)) i = Some sc
      /\ title sc = lit "Slide " ++ Py.str_of_nat (i + 1).
Proof.
  intros deck i slide Hn Hu.
  exists (fst (parse_powerpoint_slide [] slide i)). split.
  - rewrite extract_slides_map, nth_error_map.
    rewrite (nth_error_enumerate_from _ _ 0 i slide Hn). reflexivity.
  - destruct (parse_powerpoint_slide_fields [] slide i) as [Ht _].
    rewrite Ht, (untitled_deck_title slide Hu). reflexivity.
Qed.

Lemma untitled_slide_gets_its_position_witness :
  let bare := {| sl_title := Some (7, lit "  "); sl_shapes := [];
                 sl_notes := None |} in
  exists sc,
    nth_error (fst (extract_slides [] 0 [cover; bare])) 1 = Some sc
    /\ title sc = lit "Slide 2".
Proof.
  intros bare.
  apply (untitled_slide_gets_its_position [cover; bare] 1 bare);
    reflexivity.
Defined.

(** * Further properties of the plain-markup extractor *)

Lemma doc_step_kind :
  forall st raw,
    doc_step st raw =
    match line_kind raw with
    | Ignored => st
    | Heading => (Some (heading_slide raw), flush st)
    | Bullet => (Some (bullet_slide (fst st) raw), snd st)
    end.
Proof.
  intros st raw. unfold doc_step, line_kind, heading_slide, bullet_slide.
  destruct (negb (Py.truthy (Py.strip raw))); [reflexivity|].
  destruct (Py.startswith (lit "# ") (Py.strip raw)); [reflexivity|].
  cbn [orb].
  destruct (Py.startswith (lit "## ") (Py.strip raw)
            || Py.startswith (lit "### ") (Py.strip raw)); [reflexivity|].
  destruct (Py.startswith (lit "* ") (Py.strip raw)
            || Py.startswith (lit "- ") (Py.strip raw)); [|reflexivity].
  destruct (fst st); reflexivity.
Qed.

Lemma bullet_kind :
  forall raw,
    line_kind raw = Bullet ->
    (Py.startswith (lit "* ") (Py.strip raw)
     || Py.startswith (lit "- ") (Py.strip raw)) = true.
Proof.
  intros raw. unfold line_kind.
  destruct (negb (Py.truthy (Py.strip raw))); [discriminate|].
  destruct (Py.startswith (lit "# ") (Py.strip raw)
            || Py.startswith (lit "## ") (Py.strip raw)
            || Py.startswith (lit "### ") (Py.strip raw)); [discriminate|].
  destruct (Py.startswith (lit "* ") (Py.strip raw)
            || Py.startswith (lit "- ") (Py.strip raw));
    [reflexivity|discriminate].
Qed.

Lemma doc_step_markup :
  forall st raw,
    Forall markup_slide (flush st) ->
    Forall markup_slide (flush (doc_step st raw)).
Proof.
  intros [cur slides] raw H. rewrite doc_step_kind.
  destruct (line_kind raw) eqn:K; [| |exact H].
  - unfold flush at 1. cbn [fst snd].
    apply Forall_app. split; [exact H|].
    constructor; [|constructor].
    unfold heading_slide.
    destruct (Py.startswith (lit "# ") (Py.strip raw));
      (split; [constructor|split; reflexivity]).
  - unfold flush in *. cbn [fst snd] in *.
    assert (bullet_entry (Line (Py.strip raw))) as Hb
        by (eexists; split; [reflexivity|apply bullet_kind, K]).
    destruct cur as [s|]; cbn [bullet_slide].
    + apply Forall_app in H. destruct H as [H1 H2].
      apply Forall_app. split; [exact H1|].
      inversion H2 as [|? ? [Hc [Hn Hi]] _]; subst.
      constructor; [|constructor].
      split; [|split; assumption].
      cbn [append_content content]. apply Forall_app.
      split; [exact Hc|constructor; [exact Hb|constructor]].
    + apply Forall_app. split; [exact H|].
      constructor; [|constructor].
      split; [constructor; [exact Hb|constructor]|split; reflexivity].
Qed.

(** X7: every slide the plain-markup extractor makes has no notes and no
    images, and each of its content entries is a stripped bullet line that
    still starts with its marker. *)
Theorem markup_slides_hold_bullet_lines :
  forall text, Forall markup_slide (parse_google_doc_content text).
Proof.
  intros text. unfold parse_google_doc_content.
  generalize (Py.split_char nl text). intros lines.
  assert (Forall markup_slide (flush (None, []))) as H by constructor.
  revert H. generalize (@None SlideContent, @nil SlideContent).
  induction lines as [|raw lines IH]; intros st H; simpl.
  - exact H.
  - apply IH, doc_step_markup, H.
Qed.

(** Slides already closed stay in front. *)
Lemma fold_doc_step_prefix :
  forall lines cur pre closed,
    flush (fold_left doc_step lines (cur, pre ++ closed)) =
    pre ++ flush (fold_left doc_step lines (cur, closed)).
Proof.
  induction lines as [|raw lines IH]; intros cur pre closed; simpl.
  - unfold flush. cbn [fst snd]. destruct cur;
      [symmetry; apply app_assoc|reflexivity].
  - rewrite !doc_step_kind. destruct (line_kind raw); cbn [fst snd].
    + replace (flush (cur, pre ++ closed)) with (pre ++ flush (cur, closed)).
      * apply IH.
      * unfold flush. cbn [fst snd]. destruct cur;
          [apply app_assoc|reflexivity].
    + apply IH.
    + apply IH.
Qed.

Lemma fold_doc_step_restart :
  forall lines st,
    starts_with_bullet (map line_kind lines) = false ->
    flush (fold_left doc_step lines st) =
    flush st ++ flush (fold_left doc_step lines (None, [])).
Proof.
  induction lines as [|raw lines IH]; intros st H; simpl.
  - unfold flush at 3. cbn [fst snd]. rewrite app_nil_r. reflexivity.
  - simpl in H. rewrite !doc_step_kind.
    destruct (line_kind raw); [| discriminate H |apply IH, H].
    cbn [flush fst snd].
    rewrite <- (app_nil_r (flush st)) at 1.
    apply fold_doc_step_prefix.
Qed.

Lemma split_at_nonempty :
  forall sep s, Py.split_at sep s <> [].
Proof.
  intros sep s. destruct s as [|c s]; simpl; [discriminate|].
  destruct (sep c); [discriminate|].
  destruct (Py.split_at sep s); discriminate.
Qed.

Lemma split_at_app :
  forall sep a c b,
    sep c = true ->
    Py.split_at sep (a ++ c :: b) = Py.split_at sep a ++ Py.split_at sep b.
Proof.
  intros sep a c b Hc. induction a as [|x a IH]; simpl.
  - rewrite Hc. reflexivity.
  - rewrite IH. destruct (sep x); [reflexivity|].
    pose proof (split_at_nonempty sep a) as Hne.
    destruct (Py.split_at sep a); [contradiction Hne; reflexivity|].
    reflexivity.
Qed.

(** X8: a document cut at a line break composes: when the first line of the
    second part that the extractor recognises is a heading (or it recognises
    none), the slides of the whole are the slides of the first part followed
    by the slides of the second. *)
Theorem markup_documents_compose :
  forall a b,
    starts_with_bullet (line_kinds b) = false ->
    parse_google_doc_content (a ++ nl :: b) =
    parse_google_doc_content a ++ parse_google_doc_content b.
Proof.
  intros a b H. unfold parse_google_doc_content, Py.split_char.
  rewrite split_at_app by apply N.eqb_refl.
  rewrite fold_left_app. apply fold_doc_step_restart. exact H.
Qed.

Lemma markup_documents_compose_witness :
  starts_with_bullet (line_kinds (lit "## Two")) = false
  /\ parse_google_doc_content (lit "# One" ++ nl :: lit "## Two") =
     parse_google_doc_content (lit "# One")
       ++ parse_google_doc_content (lit "## Two").
Proof.
  split; [reflexivity|].
  apply markup_documents_compose. reflexivity.
Defined.

Lemma fold_doc_step_count :
  forall lines st,
    List.length (flush (fold_left doc_step lines st)) =
    List.length (flush st)
    + List.length (filter is_heading (map line_kind lines))
    + (match fst st with
       | None => if starts_with_bullet (map line_kind lines) then 1 else 0
       | Some _ => 0
       end).
Proof.
  induction lines as [|raw lines IH]; intros [cur closed]; simpl.
  - destruct cur; lia.
  - rewrite IH, doc_step_kind.
    destruct (line_kind raw); cbn [fst snd is_heading filter].
    + unfold flush. cbn [fst snd]. simpl.
      destruct cur; simpl; rewrite ?length_app; simpl; lia.
    + unfold flush. cbn [fst snd].
      destruct cur; simpl; rewrite ?length_app; simpl; lia.
    + reflexivity.
Qed.

(** X9: the number of slides is the number of heading lines, plus one when
    the first recognised line is a bullet (the orphan slide); a document with
    no recognised line gives no slide. *)
Theorem markup_slide_count :
  forall text,
    List.length (parse_google_doc_content text) =
    List.length (filter is_heading (line_kinds text))
    + (if starts_with_bullet (line_kinds text) then 1 else 0).
Proof.
  intros text. unfold parse_google_doc_content, line_kinds.
  rewrite fold_doc_step_count. reflexivity.
Qed.

(** * Further properties of the renderer *)

(** X10: a bullets slide and a default slide render alike; a section slide
    renders like them exactly when it has content, and without content it
    omits the reveal block that they still emit. *)
Theorem section_differs_only_when_empty :
  forall s,
    convert_slide_to_markdown (with_type s BulletsSlide)
    = convert_slide_to_markdown (with_type s DefaultSlide)
    /\ if Py.truthy (content s)
       then convert_slide_to_markdown (with_type s SectionSlide)
            = convert_slide_to_markdown (with_type s DefaultSlide)
       else convert_slide_to_markdown (with_type s SectionSlide)
            <> convert_slide_to_markdown (with_type s DefaultSlide).
Proof.
  intros s. split; [reflexivity|].
  unfold convert_slide_to_markdown, with_type. cbn [slide_type content title images].
  destruct (content s) as [|it items]; cbn [Py.truthy]; [|reflexivity].
  intros H. apply (f_equal (@List.length char)) in H.
  unfold text_lines in H. cbn [Py.join] in H.
  rewrite !length_app in H. simpl in H. lia.
Qed.

Lemma render_by_fields :
  forall s1 s2,
    rendered_fields s1 = rendered_fields s2 ->
    convert_slide_to_markdown s1 = convert_slide_to_markdown s2.
Proof.
  intros s1 s2 H. unfold rendered_fields in H.
  injection H as Ht Hc Hty Hi.
  unfold convert_slide_to_markdown. rewrite Ht, Hc, Hty, Hi. reflexivity.
Qed.

(** X11: the output document is a function of the titles, contents, types
    and image references of the slides: speaker notes and layout never reach
    it. *)
Theorem notes_never_reach_the_document :
  forall title author slides1 slides2,
    map rendered_fields slides1 = map rendered_fields slides2 ->
    full_content title author slides1 = full_content title author slides2.
Proof.
  intros t a slides1 slides2 H.
  assert (map convert_slide_to_markdown slides1
          = map convert_slide_to_markdown slides2) as E.
  { revert slides2 H. induction slides1 as [|s1 r1 IH]; intros [|s2 r2] H;
      try discriminate H; [reflexivity|].
    cbn [map] in H.
    assert (rendered_fields s1 = rendered_fields s2) as Hs by congruence.
    assert (map rendered_fields r1 = map rendered_fields r2) as Hr
        by congruence.
    cbn [map]. rewrite (render_by_fields s1 s2 Hs), (IH r2 Hr).
    reflexivity. }
  unfold full_content. rewrite !slidev_content_assembled.
  unfold assembled. rewrite E. reflexivity.
Qed.

Lemma notes_never_reach_the_document_witness :
  let s1 := mkSlide (lit "A") [Tuple 0 (lit "x")] DefaultSlide
                    (lit "say this") [] in
  let s2 := mkSlide (lit "A") [Tuple 0 (lit "x")] DefaultSlide [] [] in
  s1 <> s2
  /\ full_content (lit "T") (lit "K") [s1] = full_content (lit "T") (lit "K") [s2].
Proof.
  split; [discriminate|].
  apply notes_never_reach_the_document. reflexivity.
Defined.

(** * Further properties of escaping and of the sanitizer *)

Lemma replace_absent :
  forall old new s, ~ In old s -> Py.replace old new s = s.
Proof.
  intros old new s. unfold Py.replace.
  induction s as [|c s IH]; intros H; simpl; [reflexivity|].
  destruct (N.eqb_spec c old) as [E|E].
  - exfalso. apply H. left. exact E.
  - rewrite IH; [reflexivity|]. intros Hin. apply H. right. exact Hin.
Qed.

(** X12: escaping is idempotent: an escaped text has no angle bracket left,
    so escaping it again changes nothing. *)
Theorem escape_idempotent : forall s, escape (escape s) = escape s.
Proof.
  intros s. destruct (escape_no_angle s) as [Hlt Hgt].
  unfold escape at 1.
  rewrite (replace_absent lt _ _ Hlt). apply replace_absent, Hgt.
Qed.

Lemma ascii_lower_word_slug :
  forall c, ascii_lower_word c = true -> slug_char c = true.
Proof.
  intros c H.
  assert (Py.is_ascii c = true) as Ha.
  { unfold ascii_lower_word in H. split_andb.
    apply ascii_word_is_ascii. assumption. }
  pose proof (ascii_cases
                (fun c => implb (ascii_lower_word c) (slug_char c))
                eq_refl c Ha) as Hc.
  cbv beta in Hc. rewrite H in Hc. exact Hc.
Qed.

Lemma single_hyphens_cons :
  forall a b r,
    single_hyphens (a :: b :: r) =
    negb ((a =? hyphen)%N && (b =? hyphen)%N) && single_hyphens (b :: r).
Proof. reflexivity. Qed.

Lemma tidy_slug :
  forall s after_hyphen,
    tidy ascii_lower_word after_hyphen s = true ->
    forallb slug_char s = true
    /\ single_hyphens s = true
    /\ (after_hyphen = true ->
        match s with c :: _ => (c =? hyphen)%N = false | [] => True end).
Proof.
  induction s as [|c s IH]; intros b H.
  - repeat split.
  - cbn [tidy] in H. destruct (N.eqb_spec c hyphen) as [E|E].
    + subst c. apply andb_prop in H. destruct H as [Hb H].
      destruct (IH true H) as [H1 [H2 H3]].
      split; [simpl; exact H1|]. split.
      * destruct s as [|d s]; [reflexivity|].
        rewrite single_hyphens_cons, (H3 eq_refl), H2. reflexivity.
      * intros ->. discriminate Hb.
    + apply andb_prop in H. destruct H as [Hw H].
      destruct (IH false H) as [H1 [H2 _]].
      split; [simpl; rewrite (ascii_lower_word_slug c Hw); exact H1|].
      split.
      * destruct s as [|d s]; [reflexivity|].
        rewrite single_hyphens_cons.
        assert ((c =? hyphen)%N = false) as -> by (apply N.eqb_neq; exact E).
        exact H2.
      * intros _. reflexivity.
Qed.

(** X13: the slug of an ASCII title is made of lowercase letters, digits,
    underscores and single hyphens only: no whitespace, no slash, no dot, no
    uppercase letter, and never two hyphens in a row. *)
Theorem ascii_slug_alphabet :
  forall u x,
    Forall (fun c => Py.is_ascii c = true) x ->
    forallb slug_char (sanitize_filename u x) = true
    /\ single_hyphens (sanitize_filename u x) = true.
Proof.
  intros u x Hx.
  assert (tidy ascii_lower_word false (sanitize_filename u x) = true) as Ht.
  { rewrite sanitize_filename_unfold.
    apply tidy_lower. apply sub_runs_tidy. exact Hx. }
  destruct (tidy_slug _ _ Ht) as [H1 [H2 _]]. split; assumption.
Qed.

Lemma ascii_slug_alphabet_witness :
  Forall (fun c => Py.is_ascii c = true) (lit "My  Talk -- v2.0/final")
  /\ sanitize_filename latin_db (lit "My  Talk -- v2.0/final")
     = lit "my-talk-v20final"
  /\ forallb slug_char
             (sanitize_filename latin_db (lit "My  Talk -- v2.0/final"))
     = true.
Proof.
  assert (Forall (fun c => Py.is_ascii c = true)
                 (lit "My  Talk -- v2.0/final")) as H
      by (repeat constructor).
  split; [exact H|]. split; [reflexivity|].
  apply (ascii_slug_alphabet latin_db _ H).
Defined.

Lemma sub_runs_empty :
  forall s,
    Py.sub_runs hyphen_or_space [hyphen] false s = [] -> s = [].
Proof.
  intros [|c s]; [reflexivity|]. simpl.
  destruct (hyphen_or_space c); discriminate.
Qed.

Lemma lower_from_empty :
  forall u before s,
    match s with c :: _ => Py.is_ascii c = true | [] => True end ->
    Py.lower_from u before s = [] -> s = [].
Proof.
  intros u before [|c s] Ha; [reflexivity|]. simpl. rewrite Ha. discriminate.
Qed.

(** X14: the slug of an ASCII title is empty exactly when the title has no
    letter, digit, underscore, whitespace or hyphen: a title of punctuation
    only gives an empty directory name. *)
Theorem ascii_slug_empty :
  forall u x,
    Forall (fun c => Py.is_ascii c = true) x ->
    (sanitize_filename u x = [] <-> filter (kept u) x = []).
Proof.
  intros u x Hx. rewrite sanitize_filename_unfold. split.
  - intros H. apply sub_runs_empty.
    apply (lower_from_empty u []); [|exact H].
    pose proof (sub_runs_tidy u x false Hx) as Ht.
    destruct (Py.sub_runs hyphen_or_space [hyphen] false (filter (kept u) x))
      as [|c r]; [exact I|].
    cbn [tidy] in Ht. destruct (N.eqb_spec c hyphen) as [->|_];
      [reflexivity|].
    apply andb_prop in Ht. destruct Ht as [Hw _].
    apply ascii_word_is_ascii, Hw.
  - intros ->. reflexivity.
Qed.

Lemma ascii_slug_empty_witness :
  Forall (fun c => Py.is_ascii c = true) (lit "?!...")
  /\ sanitize_filename latin_db (lit "?!...") = [].
Proof.
  assert (Forall (fun c => Py.is_ascii c = true) (lit "?!...")) as H
      by (repeat constructor).
  split; [exact H|].
  apply (ascii_slug_empty latin_db _ H). reflexivity.
Defined.

(** * Further properties of the conversion *)

(** X15: when the deck cannot be opened the conversion raises the error of
    python-pptx after that one call: no directory is made and nothing is
    written. *)
Theorem unreadable_deck_leaves_nothing :
  forall u env pptx_path output_dir author tr,
    PPTX_AVAILABLE env = true ->
    load_presentation env pptx_path = None ->
    convert_powerpoint_to_slidev u env pptx_path output_dir author tr =
    (inl PackageError, tr ++ [OpenDeck pptx_path]).
Proof.
  intros u env pptx_path output_dir author tr Hav Hload.
  rewrite convert_outcome. unfold conversion_outcome.
  rewrite Hav, Hload. reflexivity.
Qed.

Lemma unreadable_deck_leaves_nothing_witness :
  let env := {| PPTX_AVAILABLE := true;
                load_presentation := fun _ => None;
                mkdir_fails := fun _ => false;
                open_fails := fun _ => false;
                path_join := fun a b => a ++ lit "/" ++ b;
                path_stem := fun p => p |} in
  convert_powerpoint_to_slidev latin_db env (lit "gone.pptx") (lit "out")
                               (lit "Ken") []
  = (inl PackageError, [OpenDeck (lit "gone.pptx")]).
Proof.
  intros env.
  apply (unreadable_deck_leaves_nothing latin_db env (lit "gone.pptx")
           (lit "out") (lit "Ken") []); reflexivity.
Defined.

(** X16: when the directory of the presentation cannot be made the
    conversion raises OSError and no file is written, not even an image. *)
Theorem mkdir_failure_writes_nothing :
  forall u env pptx_path output_dir author tr deck,
    PPTX_AVAILABLE env = true ->
    load_presentation env pptx_path = Some deck ->
    mkdir_fails env (presentation_dir u env pptx_path output_dir deck)
    = true ->
    convert_powerpoint_to_slidev u env pptx_path output_dir author tr =
    (inl OSError,
     tr ++ [OpenDeck pptx_path;
            Mkdir (presentation_dir u env pptx_path output_dir deck)]).
Proof.
  intros u env pptx_path output_dir author tr deck Hav Hload Hmk.
  rewrite convert_outcome. unfold conversion_outcome.
  rewrite Hav, Hload. cbv zeta. simpl negb. cbv iota.
  rewrite Hmk. reflexivity.
Qed.

Lemma mkdir_failure_writes_nothing_witness :
  let env := {| PPTX_AVAILABLE := true;
                load_presentation := fun _ => Some [three_pictures];
                mkdir_fails := fun _ => true;
                open_fails := fun _ => false;
                path_join := fun a b => a ++ lit "/" ++ b;
                path_stem := fun p => p |} in
  convert_powerpoint_to_slidev latin_db env (lit "talk.pptx") (lit "out")
                               (lit "Ken") []
  = (inl OSError, [OpenDeck (lit "talk.pptx"); Mkdir (lit "out/gallery")]).
Proof.
  intros env.
  apply (mkdir_failure_writes_nothing latin_db env (lit "talk.pptx")
           (lit "out") (lit "Ken") [] [three_pictures]); reflexivity.
Defined.

(** X17: whether saving an image succeeds is not observable: two worlds that
    differ only in which files other than slides.md can be opened give the
    same result and the same sequence of calls. *)
Theorem image_save_failures_are_tolerated :
  forall u env open_fails' pptx_path output_dir author tr,
    (forall dir,
        open_fails' (path_join env dir (lit "slides.md"))
        = open_fails env (path_join env dir (lit "slides.md"))) ->
    convert_powerpoint_to_slidev
      u {| PPTX_AVAILABLE := PPTX_AVAILABLE env;
           load_presentation := load_presentation env;
           mkdir_fails := mkdir_fails env;
           open_fails := open_fails';
           path_join := path_join env;
           path_stem := path_stem env |}
      pptx_path output_dir author tr
    = convert_powerpoint_to_slidev u env pptx_path output_dir author tr.
Proof.
  intros u env open_fails' pptx_path output_dir author tr H.
  rewrite !convert_outcome. unfold conversion_outcome.
  cbn [PPTX_AVAILABLE load_presentation mkdir_fails open_fails path_join
       path_stem].
  destruct (PPTX_AVAILABLE env); [|reflexivity]. simpl negb. cbv iota.
  destruct (load_presentation env pptx_path) as [deck|]; [|reflexivity].
  cbv zeta.
  change (presentation_dir u {| PPTX_AVAILABLE := true;
           load_presentation := load_presentation env;
           mkdir_fails := mkdir_fails env;
           open_fails := open_fails';
           path_join := path_join env;
           path_stem := path_stem env |} pptx_path output_dir deck)
    with (presentation_dir u env pptx_path output_dir deck).
  rewrite H. reflexivity.
Qed.

Lemma startswith_app : forall p r, Py.startswith p (p ++ r) = true.
Proof.
  induction p as [|c p IH]; intros r; simpl; [reflexivity|].
  rewrite N.eqb_refl. apply IH.
Qed.

Lemma image_save_failures_are_tolerated_witness :
  let env := fair_weather [three_pictures] in
  let only_documents :=
    fun p => negb (Py.startswith (rev (lit "/slides.md")) (rev p)) in
  convert_powerpoint_to_slidev
    latin_db
    {| PPTX_AVAILABLE := PPTX_AVAILABLE env;
       load_presentation := load_presentation env;
       mkdir_fails := mkdir_fails env;
       open_fails := only_documents;
       path_join := path_join env;
       path_stem := path_stem env |}
    (lit "talk.pptx") (lit "out") (lit "Ken") []
  = convert_powerpoint_to_slidev latin_db env (lit "talk.pptx") (lit "out")
                                 (lit "Ken") [].
Proof.
  intros env only_documents.
  apply (image_save_failures_are_tolerated latin_db env only_documents).
  intros dir. unfold only_documents. cbn [env fair_weather path_join open_fails].
  change (dir ++ lit "/" ++ lit "slides.md") with (dir ++ lit "/slides.md").
  rewrite rev_app_distr, startswith_app. reflexivity.
Defined.

Lemma written_paths_app :
  forall a b, written_paths (a ++ b) = written_paths a ++ written_paths b.
Proof. intros a b. unfold written_paths. apply flat_map_app. Qed.






(** * class MCPSlidevConverter and main *)

(** A conversion adds its calls to the trace and depends on nothing in it. *)
Lemma convert_frame :
  forall u env pptx_path output_dir author tr,
    convert_powerpoint_to_slidev u env pptx_path output_dir author tr =
    (fst (convert_powerpoint_to_slidev u env pptx_path output_dir author []),
     tr ++ snd (convert_powerpoint_to_slidev u env pptx_path output_dir
                                             author [])).
Proof.
  intros u env pptx_path output_dir author tr.
  rewrite (convert_outcome u env pptx_path output_dir author []).
  rewrite convert_outcome. reflexivity.
Qed.

Lemma batch_loop_closed_form :
  forall u env output_dir pptx_files results tr,
    batch_loop u env output_dir pptx_files results tr =
    (inr (results ++ flat_map (file_result u env output_dir) pptx_files),
     tr ++ flat_map (file_calls u env output_dir) pptx_files).
Proof.
  intros u env output_dir pptx_files.
  induction pptx_files as [|f rest IH]; intros results tr; simpl.
  - unfold ret. rewrite !app_nil_r. reflexivity.
  - unfold bind, attempt. unfold convert_from_powerpoint at 1.
    rewrite convert_frame. unfold file_result at 1, file_calls at 1.
    unfold convert_from_powerpoint.
    destruct (fst (convert_powerpoint_to_slidev u env f output_dir
                                                default_author []))
      as [e|result]; rewrite IH; rewrite <- !app_assoc; reflexivity.
Qed.


(** Without the backend a file of a batch gives no result and makes no
    call. *)
Lemma file_without_backend :
  forall u env output_dir pptx_files,
    PPTX_AVAILABLE env = false ->
    flat_map (file_result u env output_dir) pptx_files = []
    /\ flat_map (file_calls u env output_dir) pptx_files = [].
Proof.
  intros u env output_dir pptx_files H.
  assert (forall f, file_result u env output_dir f = []
                    /\ file_calls u env output_dir f = []) as Hf.
  { intros f. unfold file_result, file_calls, convert_from_powerpoint.
    rewrite convert_outcome. unfold conversion_outcome.
    rewrite H. split; reflexivity. }
  induction pptx_files as [|f files [IH1 IH2]]; simpl.
  - split; reflexivity.
  - destruct (Hf f) as [-> ->]. split; assumption.
Qed.

(** X21: without python-pptx a batch whose directory can be read does not
    fail: every file raises the missing-dependency error, each error is
    swallowed, and the batch returns the empty list; reading the directory is
    its only file-system call. *)
Theorem batch_swallows_missing_backend :
  forall u env glob pptx_directory output_dir tr pptx_files,
    PPTX_AVAILABLE env = false ->
    glob pptx_directory = Some pptx_files ->
    batch_convert_powerpoints u env glob pptx_directory output_dir tr =
    (inr [], tr ++ [ScanDir pptx_directory]).
Proof.
  intros u env glob pptx_directory output_dir tr pptx_files H Hglob.
  unfold batch_convert_powerpoints, bind, emit. rewrite Hglob.
  rewrite batch_loop_closed_form.
  destruct (file_without_backend u env output_dir pptx_files H) as [-> ->].
  cbn [app]. rewrite app_nil_r. reflexivity.
Qed.

Lemma batch_swallows_missing_backend_witness :
  batch_convert_powerpoints latin_db (no_backend [cover])
    (fun _ => Some [lit "a.pptx"; lit "b.pptx"]) (lit "decks") (lit "out") []
  = (inr [], [ScanDir (lit "decks")]).
Proof.
  apply (batch_swallows_missing_backend
           latin_db (no_backend [cover])
           (fun _ => Some [lit "a.pptx"; lit "b.pptx"]) (lit "decks")
           (lit "out") [] [lit "a.pptx"; lit "b.pptx"]); reflexivity.
Defined.

(** X22: started with neither --pptx nor --batch, main raises
    AttributeError before any file-system call: the demonstration goes
    through convert_from_google_drive_doc, which calls a method the converter
    does not have. *)
Theorem main_demo_raises :
  forall u env glob args tr,
    given (args_pptx args) = false ->
    given (args_batch args) = false ->
    main u env glob args tr = (inl (AttributeError no_such_method), tr).
Proof.
  intros u env glob args tr Hp Hb. unfold main. rewrite Hp, Hb.
  reflexivity.
Qed.

Lemma main_demo_raises_witness :
  main latin_db (fair_weather [cover]) (fun _ => Some [])
       {| args_pptx := None; args_batch := None;
          args_output := lit "./slidev-presentations" |} []
  = (inl (AttributeError no_such_method), []).
Proof.
  apply main_demo_raises; reflexivity.
Defined.



(** * Shapes that add no content, and section slides of a deck *)

Lemma shape_entries_excluded :
  forall slide shape,
    content_shape slide shape = false -> shape_entries slide shape = [].
Proof.
  intros slide shape H. unfold content_shape in H.
  unfold shape_entries, shape_step.
  destruct (sh_image shape) as [[data|]|]; [reflexivity|reflexivity|].
  apply negb_false_iff in H. rewrite H.
  destruct (sh_text_frame shape); [reflexivity|].
  destruct (sh_text shape) as [t|]; [|reflexivity].
  destruct (Py.truthy (Py.strip t)); reflexivity.
Qed.

(** X24: the content of a deck slide is what its shapes other than the
    pictures and the title placeholder contribute, in shape order: the title
    text is never counted a second time as content, wherever the placeholder
    stands among the shapes. *)
Theorem title_shape_adds_no_content :
  forall temp slide n,
    content (fst (parse_powerpoint_slide temp slide n)) =
    flat_map (shape_entries slide)
             (filter (content_shape slide) (sl_shapes slide)).
Proof.
  intros temp slide n. rewrite parse_powerpoint_slide_closed_form.
  cbn [fst mkSlide content].
  induction (sl_shapes slide) as [|shape shapes IH]; [reflexivity|].
  cbn [flat_map filter]. rewrite IH.
  destruct (content_shape slide shape) eqn:E; [reflexivity|].
  rewrite (shape_entries_excluded slide shape E). reflexivity.
Qed.

(** X25: a slide extracted from a deck is typed section only when it is not
    the first, has no content and has a title of its own; its fragment is
    then the heading followed by its images, with no reveal block. *)
Theorem deck_section_is_heading_only :
  forall temp slide n,
    let sc := fst (parse_powerpoint_slide temp slide n) in
    slide_type sc = SectionSlide ->
    n <> 0
    /\ content sc = []
    /\ title sc = deck_title slide
    /\ convert_slide_to_markdown sc =
       text_lines [ []; lit "# " ++ deck_title slide; [];
                    image_md (images sc); [] ].
Proof.
  intros temp slide n sc H.
  destruct (parse_powerpoint_slide_fields temp slide n)
    as [Ht [Hc [Hty _]]].
  fold sc in Ht, Hc, Hty. rewrite Hty in H. unfold deck_slide_type in H.
  destruct n as [|n]; [discriminate H|]. cbn [Nat.eqb] in H.
  destruct (fst (scan_shapes slide (S n))) as [|it items] eqn:Ec.
  - assert (Py.truthy (deck_title slide) = true) as Hd
        by (destruct (Py.truthy (deck_title slide));
            [reflexivity|discriminate H]).
    rewrite Hd in Ht.
    split; [discriminate|]. split; [exact Hc|]. split; [exact Ht|].
    unfold convert_slide_to_markdown. rewrite Hty, Hc, Ht.
    unfold deck_slide_type. rewrite ?Ec, Hd. reflexivity.
  - cbn [Py.truthy negb andb] in H.
    destruct (3 <? List.length (it :: items)); discriminate H.
Qed.

Lemma deck_section_is_heading_only_witness :
  let sc := fst (parse_powerpoint_slide [] cover 1) in
  slide_type sc = SectionSlide
  /\ convert_slide_to_markdown sc =
     text_lines [ []; lit "# Say hi"; []; []; [] ].
Proof.
  intros sc. split; [reflexivity|].
  destruct (deck_section_is_heading_only [] cover 1 eq_refl)
    as [_ [_ [_ H]]].
  exact H.
Defined.

(** * The probe of line 71 *)

(** X26: a shape whose test for an image raises, on whatever slide of the
    deck, ends the conversion: it raises the exception of the probe after
    the deck was opened, and no directory is made and no file written. *)
Theorem raising_probe_ends_the_conversion :
  forall u env decks pptx_path output_dir author deck tr,
    PPTX_AVAILABLE env = true ->
    decks pptx_path = Some deck ->
    Exists (fun slide => In ProbeRaises (ps_probes slide)) deck ->
    convert_powerpoint_to_slidev_probed u env decks pptx_path output_dir
                                        author tr
    = (inl ProbeError, tr ++ [OpenDeck pptx_path]).
Proof.
  intros u env decks pptx_path output_dir author deck tr Hav Hdecks Hraises.
  unfold convert_powerpoint_to_slidev_probed, extract_from_powerpoint_probed.
  rewrite Hav, Hdecks, (extract_slides_probed_raises deck [] 0 Hraises).
  reflexivity.
Qed.

Lemma raising_probe_ends_the_conversion_witness :
  convert_powerpoint_to_slidev_probed
    latin_db (fair_weather []) (fun _ => Some linked_deck)
    (lit "talk.pptx") (lit "out") (lit "Ken") []
  = (inl ProbeError, [OpenDeck (lit "talk.pptx")]).
Proof.
  apply (raising_probe_ends_the_conversion
           latin_db (fair_weather []) (fun _ => Some linked_deck)
           (lit "talk.pptx") (lit "out") (lit "Ken") linked_deck []).
  - reflexivity.
  - reflexivity.
  - apply Exists_cons_tl. apply Exists_cons_hd.
    cbn [linked_picture ps_probes]. auto 6 using in_eq, in_cons.
Defined.


